(** * gorouter: the proxy pipeline handlers, embedded and verified

  A shallow embedding of [proxy/proxy.go], [handlers/healthcheck.go],
  [handlers/reporter.go] and the panic guard of package [handlers].  Go
  strings are byte strings ([string]), [int64] and [time.Duration] values
  are [Z], maps are [gmap], pointers are locations into a store, and a
  handler is a function on an explicit state that either returns or
  panics. *)

From Stdlib Require Import ZArith NArith Ascii String DecimalString.
From stdpp Require Import gmap strings list sorting.

Local Open Scope string_scope.
Local Open Scope Z_scope.

(* ===================================================================== *)
(** ** Go's [strings] package, as far as the handlers call it *)
(* ===================================================================== *)

Module Strings.

(** [strings.HasPrefix(s, prefix)] *)
Definition HasPrefix (s pre : string) : bool := String.prefix pre s.

(** [strings.HasSuffix(s, suffix)]: some tail of [s] is [suffix]; only the
    tail of the right length can be. *)
Fixpoint HasSuffix (s suffix : string) : bool :=
  if String.eqb s suffix then true
  else match s with
       | EmptyString => false
       | String _ s' => HasSuffix s' suffix
       end.

(** [strings.TrimSuffix(s, suffix)]: [s[:len(s)-len(suffix)]] when [s] ends
    with [suffix], [s] otherwise. *)
Definition TrimSuffix (s suffix : string) : string :=
  if HasSuffix s suffix
  then String.substring 0 (String.length s - String.length suffix) s
  else s.

(** [strings.Split(s, sep)] for a separator of one byte, which is how the
    proxy calls it: the pieces between the occurrences of [sep], always at
    least one piece. *)
Fixpoint Split (s : string) (sep : ascii) : list string :=
  match s with
  | EmptyString => [EmptyString]
  | String c s' =>
      if Ascii.eqb c sep then EmptyString :: Split s' sep
      else match Split s' sep with
           | piece :: pieces => String c piece :: pieces
           | [] => [String c EmptyString]
           end
  end.

(** [strings.Contains(s, sep)] for a separator of one byte. *)
Fixpoint ContainsByte (s : string) (sep : ascii) : bool :=
  match s with
  | EmptyString => false
  | String c s' => Ascii.eqb c sep || ContainsByte s' sep
  end.

(** [strings.Cut(s, sep)] for a separator of one byte: the text before and
    after the first [sep]; all of [s] and the empty string when there is
    none. *)
Fixpoint Cut (s : string) (sep : ascii) : string * string :=
  match s with
  | EmptyString => (EmptyString, EmptyString)
  | String c s' =>
      if Ascii.eqb c sep then (EmptyString, s')
      else let '(before, after) := Cut s' sep in (String c before, after)
  end.

End Strings.

(* ===================================================================== *)
(** ** Go's [net/url] package: escaping, query values, the URL struct *)
(* ===================================================================== *)

Module Url.

(** The two escaping modes the proxy reaches: [url.PathEscape] uses
    [encodePathSegment], [url.QueryEscape] and [Values.Encode] use
    [encodeQueryComponent]. *)
Inductive encoding := encodePathSegment | encodeQueryComponent.

Definition isAlnum (c : ascii) : bool :=
  let n := N_of_ascii c in
  ((97 <=? n) && (n <=? 122) || (65 <=? n) && (n <=? 90)
   || (48 <=? n) && (n <=? 57))%N.

(** [shouldEscape(c, mode)]: unreserved bytes are never escaped; of the
    reserved ones a path segment keeps [$ & + : = @] and escapes [/ ; , ?],
    a query component escapes all; every other byte is escaped. *)
Definition shouldEscape (c : ascii) (mode : encoding) : bool :=
  if isAlnum c then false
  else if Strings.ContainsByte "-_.~" c then false
  else if Strings.ContainsByte "$&+,/:;=?@" c then
    match mode with
    | encodePathSegment => Strings.ContainsByte "/;,?" c
    | encodeQueryComponent => true
    end
  else true.

(** ["0123456789ABCDEF"[n]] *)
Definition upperhex (n : N) : ascii :=
  match String.get (N.to_nat n) "0123456789ABCDEF" with
  | Some d => d
  | None => "0"%char
  end.

(** One byte of [escape(s, mode)]'s output loop. *)
Definition escapeByte (mode : encoding) (c : ascii) : string :=
  if shouldEscape c mode then
    match mode with
    | encodeQueryComponent =>
        if Ascii.eqb c " " then "+"
        else String "%" (String (upperhex (N.shiftr (N_of_ascii c) 4))
                           (String (upperhex (N.land (N_of_ascii c) 15)) ""))
    | encodePathSegment =>
        String "%" (String (upperhex (N.shiftr (N_of_ascii c) 4))
                      (String (upperhex (N.land (N_of_ascii c) 15)) ""))
    end
  else String c "".

(** [escape(s, mode)] *)
Fixpoint escape (s : string) (mode : encoding) : string :=
  match s with
  | EmptyString => EmptyString
  | String c s' => escapeByte mode c ++ escape s' mode
  end.

Definition PathEscape (s : string) : string := escape s encodePathSegment.
Definition QueryEscape (s : string) : string := escape s encodeQueryComponent.

Definition ishex (c : ascii) : bool :=
  let n := N_of_ascii c in
  ((48 <=? n) && (n <=? 57) || (97 <=? n) && (n <=? 102)
   || (65 <=? n) && (n <=? 70))%N.

Definition unhex (c : ascii) : N :=
  let n := N_of_ascii c in
  (if (48 <=? n) && (n <=? 57) then n - 48
   else if (97 <=? n) && (n <=? 102) then n - 97 + 10
   else if (65 <=? n) && (n <=? 70) then n - 65 + 10
   else 0)%N.

(** [QueryUnescape(s)]: [%XX] becomes the byte, [+] becomes a space; [None]
    is the [EscapeError] for a [%] that two hex digits do not follow. *)
Fixpoint QueryUnescape (s : string) : option string :=
  match s with
  | EmptyString => Some EmptyString
  | String c rest =>
      if Ascii.eqb c "%" then
        match rest with
        | String a (String b rest') =>
            if ishex a && ishex b
            then String (ascii_of_N (N.lor (N.shiftl (unhex a) 4) (unhex b)))
                   <$> QueryUnescape rest'
            else None
        | _ => None
        end
      else if Ascii.eqb c "+" then String " " <$> QueryUnescape rest
      else String c <$> QueryUnescape rest
  end.

(** [url.Values] is [map[string][]string]. *)
Abbreviation Values := (gmap string (list string)).

(** One round of [parseQuery]'s loop on the piece [key] cut off at ["&"]:
    pieces with a semicolon, empty pieces and pieces that fail to unescape
    are skipped, the others are appended under their key. *)
Definition parseQueryPiece (m : Values) (key : string) : Values :=
  if Strings.ContainsByte key ";" then m
  else if String.eqb key "" then m
  else
    let '(k, v) := Strings.Cut key "=" in
    match QueryUnescape k with
    | None => m
    | Some k' =>
        match QueryUnescape v with
        | None => m
        | Some v' => <[k' := (default [] (m !! k') ++ [v'])%list]> m
        end
    end.

(** [ParseQuery(query)], the error dropped as [URL.Query] drops it: the
    loop cuts [query] at each ["&"] from the left, which visits the pieces of
    [strings.Split(query, "&")] in order. *)
Definition ParseQuery (query : string) : Values :=
  fold_left parseQueryPiece (Strings.Split query "&") ∅.

(** [slices.Sort(keys)] over the keys of the map: strings are ordered byte
    by byte. *)
Definition sortedKeys (v : Values) : list string :=
  merge_sort String.le (map fst (map_to_list v)).

(** The pairs [key=value] that [Values.Encode] writes for one key. *)
Definition encodeKey (v : Values) (k : string) : list string :=
  map (fun x => QueryEscape k ++ "=" ++ QueryEscape x) (default [] (v !! k)).

(** [strings.Join(elems, sep)] *)
Fixpoint Join (elems : list string) (sep : string) : string :=
  match elems with
  | [] => ""
  | [e] => e
  | e :: es => e ++ sep ++ Join es sep
  end.

(** [Values.Encode()]: the keys sorted, every value written as
    [key=value], an ["&"] before each pair but the first. *)
Definition Encode (v : Values) : string :=
  Join (concat (map (encodeKey v) (sortedKeys v))) "&".

(** [url.URL], the fields the director touches. *)
Record URL := {
  Scheme : string;
  Opaque : string;
  Host : string;
  Path : string;
  ForceQuery : bool;
  RawQuery : string;
}.

(** [u.Query()] *)
Definition Query (u : URL) : Values := ParseQuery (RawQuery u).

End Url.

(* ===================================================================== *)
(** ** Go's [strconv] and [time] packages *)
(* ===================================================================== *)

Module Strconv.

(** [strconv.FormatInt(i, 10)] *)
Definition FormatInt (i : Z) : string := NilZero.string_of_int (Z.to_int i).

End Strconv.

Module Time.

(** [time.Duration] counts nanoseconds in an [int64]. *)
Definition Second : Z := 1000000000.
Definition Millisecond : Z := 1000000.
Definition minDuration : Z := - 2 ^ 63.
Definition maxDuration : Z := 2 ^ 63 - 1.

(** [time.Time]: the wall-clock instant, here in nanoseconds since the Unix
    epoch, and the monotonic-clock reading that [time.Now] adds. *)
Record Time := { unixNano : Z; monotonic : option Z }.

(** The zero value [time.Time{}]: January 1, year 1, 00:00 UTC, which is
    62135596800 seconds before the Unix epoch, without monotonic reading. *)
Definition zero : Time :=
  {| unixNano := -62135596800 * Second; monotonic := None |}.

(** [t.Equal(u)], [t.Before(u)] and [t.Sub(u)] use the monotonic readings
    when both times carry one and the wall-clock instants otherwise. *)
Definition Equal (t u : Time) : bool :=
  match monotonic t, monotonic u with
  | Some a, Some b => a =? b
  | _, _ => unixNano t =? unixNano u
  end.

Definition Before (t u : Time) : bool :=
  match monotonic t, monotonic u with
  | Some a, Some b => a <? b
  | _, _ => unixNano t <? unixNano u
  end.

(** [t.Sub(u)] saturates at the ends of [Duration]. *)
Definition Sub (t u : Time) : Z :=
  let d := match monotonic t, monotonic u with
           | Some a, Some b => a - b
           | _, _ => unixNano t - unixNano u
           end in
  Z.max minDuration (Z.min maxDuration d).

Definition UnixNano (t : Time) : Z := unixNano t.

(** The clocks of the operating system, as an oracle: the [n]-th reading of
    the clocks made by the process returns [wallAt n] and [monoAt n].  The
    wall clock may be set back, the monotonic clock never runs backwards. *)
Class Clock := {
  wallAt : nat -> Z;
  monoAt : nat -> Z;
  monoAt_nondecreasing : forall i j : nat, (i <= j)%nat -> monoAt i <= monoAt j;
}.

End Time.

(* ===================================================================== *)
(** ** Go's [net/http] package: header maps and transports *)
(* ===================================================================== *)

Module Http.

Definition StatusOK : Z := 200.
Definition StatusServiceUnavailable : Z := 503.

Definition isLower (c : ascii) : bool :=
  ((97 <=? N_of_ascii c) && (N_of_ascii c <=? 122))%N.
Definition isUpper (c : ascii) : bool :=
  ((65 <=? N_of_ascii c) && (N_of_ascii c <=? 90))%N.

(** [validHeaderFieldByte]: the token bytes of RFC 7230. *)
Definition validHeaderFieldByte (c : ascii) : bool :=
  Url.isAlnum c || Strings.ContainsByte "!#$%&'*+-.^_`|~" c.

Fixpoint allValid (s : string) : bool :=
  match s with
  | EmptyString => true
  | String c s' => validHeaderFieldByte c && allValid s'
  end.

(** The rewriting loop of [canonicalMIMEHeaderKey]: upper case for the first
    letter and after each dash, lower case elsewhere. *)
Fixpoint canonicalize (upper : bool) (s : string) : string :=
  match s with
  | EmptyString => EmptyString
  | String c s' =>
      let c' := if upper && isLower c then ascii_of_N (N_of_ascii c - 32)
                else if negb upper && isUpper c then ascii_of_N (N_of_ascii c + 32)
                else c in
      String c' (canonicalize (Ascii.eqb c' "-") s')
  end.

(** [http.CanonicalHeaderKey(s)]: a key with a byte that no header name may
    hold is returned as it is. *)
Definition CanonicalHeaderKey (s : string) : string :=
  if allValid s then canonicalize true s else s.

(** [http.Header] is [map[string][]string]. *)
Abbreviation Header := (gmap string (list string)).

(** [h.Get(key)] *)
Definition Get (h : Header) (key : string) : string :=
  match h !! CanonicalHeaderKey key with
  | Some (v :: _) => v
  | _ => ""
  end.

(** [h.Set(key, value)] *)
Definition Set_ (h : Header) (key value : string) : Header :=
  <[CanonicalHeaderKey key := [value]]> h.

(** [h.Del(key)] *)
Definition Del (h : Header) (key : string) : Header :=
  delete (CanonicalHeaderKey key) h.

(** [net.Dialer], the fields the proxy sets. *)
Record Dialer := { Timeout : Z; KeepAlive : Z }.

(** [http.Transport], the fields the proxy sets; every other field has its
    zero value in both templates.  [DialContext] is the method value
    [dialer.DialContext], which is determined by its dialer;
    [TLSClientConfig] is a pointer to a [tls.Config]. *)
Record Transport := {
  DialContext : option Dialer;
  DisableKeepAlives : bool;
  MaxIdleConns : Z;
  IdleConnTimeout : Z;
  MaxIdleConnsPerHost : Z;
  DisableCompression : bool;
  TLSClientConfig : option positive;
  TLSHandshakeTimeout : Z;
  ExpectContinueTimeout : Z;
}.

End Http.

(* ===================================================================== *)
(** ** The repository's data: configuration, health, requests, writers *)
(* ===================================================================== *)

Module Health.

(** Modelled from the spec: the package [common/health] is not among the
    sources.  The spec names the states Healthy and Degraded and uses only
    [SetHealth(state)] and [Health() -> state]; [Initializing] stands for a
    state that is neither. *)
Inductive Status := Initializing | Healthy | Degraded.

#[global] Instance Status_eq_dec : EqDecision Status.
Proof. solve_decision. Defined.

End Health.

Module Config.

(** [config.Config], the fields that [proxy.go] reads. *)
Record Config := {
  EndpointDialTimeout : Z;
  EndpointKeepAliveProbeInterval : Z;
  DisableKeepAlives : bool;
  MaxIdleConns : Z;
  MaxIdleConnsPerHost : Z;
  TLSHandshakeTimeout : Z;
  SendHttpStartStopClientEvent : bool;
  EnableHTTP1ConcurrentReadWrite : bool;
}.

End Config.

(** Pointers are locations; [None] is the nil pointer. *)
Abbreviation loc := positive.

(** [handlers.RequestInfo], the fields that the handlers below touch.  The
    pool, the endpoint and the header map are held by reference. *)
Record RequestInfo := {
  ReceivedAt : Time.Time;
  AppRequestStartedAt : Time.Time;
  AppRequestFinishedAt : Time.Time;
  RoutePool : option loc;
  RouteEndpoint : option loc;
  BackendReqHeaders : option loc;
}.

(** [http.Request], the fields that the handlers below touch.  [Header] is a
    map and so a reference into the store of header maps (a location outside
    the store is the nil map); [TLS] is a pointer to the connection state;
    [ctxRequestInfo] is the [*RequestInfo] held by the request's context. *)
Record Request := {
  Header : loc;
  Host : string;
  RequestURI : string;
  URL : Url.URL;
  TLS : option loc;
  Close : bool;
  ProtoMajor : Z;
  ctxRequestInfo : option loc;
}.

(** The calls a handler makes on its [http.ResponseWriter]. *)
Inductive WriterCall :=
| CallWriteHeader (statusCode : Z)
| CallWrite (body : string).

(** The response writer handed to a handler: its header map, the calls made
    on it so far (oldest first), whether its dynamic type implements
    [utils.ProxyResponseWriter], and what [EnableFullDuplex] answers on it. *)
Record ResponseWriter := {
  rwHeader : Http.Header;
  rwCalls : list WriterCall;
  rwIsProxyWriter : bool;
  rwFullDuplexErr : option string;
  rwFullDuplex : bool;
}.

(** Modelled from the spec: [utils.ProxyResponseWriter] is not among the
    sources; the spec has it wrap the response writer to observe the status.
    [Status()] is the first status written, 200 when the body came first, 0
    when nothing was written. *)
Definition Status (w : ResponseWriter) : Z :=
  match rwCalls w with
  | [] => 0
  | CallWriteHeader c :: _ => c
  | CallWrite _ :: _ => Http.StatusOK
  end.

(** The body of a response: what the [Write] calls carried, in order. *)
Fixpoint bodyOf (calls : list WriterCall) : string :=
  match calls with
  | [] => ""
  | CallWrite b :: rest => b ++ bodyOf rest
  | CallWriteHeader _ :: rest => bodyOf rest
  end.

(** The methods of [metrics.ProxyReporter], as the events they record. *)
Inductive Metric :=
| CaptureBadRequest
| CaptureBadGateway
| CaptureRoutingRequest (endpoint : loc)
| CaptureRoutingResponse (statusCode : Z)
| CaptureRoutingResponseLatency (endpoint : loc) (statusCode : Z)
    (t : Time.Time) (d : Z)
| CaptureRouteServiceResponse (statusCode : Z)
| CaptureMissingContentLengthHeader.

Inductive LogLevel := ErrorLevel | PanicLevel.

Record LogEntry := { level : LogLevel; message : string; detail : string }.

(** What a goroutine panics with: the sentinel [http.ErrAbortHandler], any
    other [error] with its text, or a value that is no [error] as [%v]
    prints it.  [recover()] never answers nil for a panic: [panic(nil)]
    panics with a [*runtime.PanicNilError], which is an [error]. *)
Inductive PanicValue :=
| ErrAbortHandler
| ErrorValue (text : string)
| OtherValue (text : string).

#[global] Instance PanicValue_eq_dec : EqDecision PanicValue.
Proof. solve_decision. Defined.

(** Everything a handler can read or change while it serves one request. *)
Record State := {
  req : Request;
  hdrs : gmap loc Http.Header;
  infos : gmap loc RequestInfo;
  rw : ResponseWriter;
  health : Health.Status;
  clockReads : nat;
  metrics : list Metric;
  logs : list LogEntry;
}.

(** *** Field updates *)

Definition setReq (f : Request -> Request) (s : State) : State :=
  {| req := f (req s); hdrs := hdrs s; infos := infos s; rw := rw s;
     health := health s; clockReads := clockReads s; metrics := metrics s;
     logs := logs s |}.

Definition setHdrs (f : gmap loc Http.Header -> gmap loc Http.Header)
    (s : State) : State :=
  {| req := req s; hdrs := f (hdrs s); infos := infos s; rw := rw s;
     health := health s; clockReads := clockReads s; metrics := metrics s;
     logs := logs s |}.

Definition setInfos (f : gmap loc RequestInfo -> gmap loc RequestInfo)
    (s : State) : State :=
  {| req := req s; hdrs := hdrs s; infos := f (infos s); rw := rw s;
     health := health s; clockReads := clockReads s; metrics := metrics s;
     logs := logs s |}.

Definition setRw (f : ResponseWriter -> ResponseWriter) (s : State) : State :=
  {| req := req s; hdrs := hdrs s; infos := infos s; rw := f (rw s);
     health := health s; clockReads := clockReads s; metrics := metrics s;
     logs := logs s |}.

Definition setHealthField (h : Health.Status) (s : State) : State :=
  {| req := req s; hdrs := hdrs s; infos := infos s; rw := rw s;
     health := h; clockReads := clockReads s; metrics := metrics s;
     logs := logs s |}.

Definition setClockReads (n : nat) (s : State) : State :=
  {| req := req s; hdrs := hdrs s; infos := infos s; rw := rw s;
     health := health s; clockReads := n; metrics := metrics s;
     logs := logs s |}.

Definition addMetric (m : Metric) (s : State) : State :=
  {| req := req s; hdrs := hdrs s; infos := infos s; rw := rw s;
     health := health s; clockReads := clockReads s;
     metrics := (metrics s ++ [m])%list; logs := logs s |}.

Definition addLog (e : LogEntry) (s : State) : State :=
  {| req := req s; hdrs := hdrs s; infos := infos s; rw := rw s;
     health := health s; clockReads := clockReads s; metrics := metrics s;
     logs := (logs s ++ [e])%list |}.

Definition withClose (b : bool) (r : Request) : Request :=
  {| Header := Header r; Host := Host r; RequestURI := RequestURI r;
     URL := URL r; TLS := TLS r; Close := b; ProtoMajor := ProtoMajor r;
     ctxRequestInfo := ctxRequestInfo r |}.

Definition withURL (f : Url.URL -> Url.URL) (r : Request) : Request :=
  {| Header := Header r; Host := Host r; RequestURI := RequestURI r;
     URL := f (URL r); TLS := TLS r; Close := Close r;
     ProtoMajor := ProtoMajor r; ctxRequestInfo := ctxRequestInfo r |}.

Definition withScheme (v : string) (u : Url.URL) : Url.URL :=
  {| Url.Scheme := v; Url.Opaque := Url.Opaque u; Url.Host := Url.Host u;
     Url.Path := Url.Path u; Url.ForceQuery := Url.ForceQuery u;
     Url.RawQuery := Url.RawQuery u |}.

Definition withHost (v : string) (u : Url.URL) : Url.URL :=
  {| Url.Scheme := Url.Scheme u; Url.Opaque := Url.Opaque u; Url.Host := v;
     Url.Path := Url.Path u; Url.ForceQuery := Url.ForceQuery u;
     Url.RawQuery := Url.RawQuery u |}.

Definition withForceQuery (v : bool) (u : Url.URL) : Url.URL :=
  {| Url.Scheme := Url.Scheme u; Url.Opaque := Url.Opaque u;
     Url.Host := Url.Host u; Url.Path := Url.Path u; Url.ForceQuery := v;
     Url.RawQuery := Url.RawQuery u |}.

Definition withOpaque (v : string) (u : Url.URL) : Url.URL :=
  {| Url.Scheme := Url.Scheme u; Url.Opaque := v; Url.Host := Url.Host u;
     Url.Path := Url.Path u; Url.ForceQuery := Url.ForceQuery u;
     Url.RawQuery := Url.RawQuery u |}.

Definition withRawQuery (v : string) (u : Url.URL) : Url.URL :=
  {| Url.Scheme := Url.Scheme u; Url.Opaque := Url.Opaque u;
     Url.Host := Url.Host u; Url.Path := Url.Path u;
     Url.ForceQuery := Url.ForceQuery u; Url.RawQuery := v |}.

Definition withStartedAt (t : Time.Time) (i : RequestInfo) : RequestInfo :=
  {| ReceivedAt := ReceivedAt i; AppRequestStartedAt := t;
     AppRequestFinishedAt := AppRequestFinishedAt i; RoutePool := RoutePool i;
     RouteEndpoint := RouteEndpoint i;
     BackendReqHeaders := BackendReqHeaders i |}.

Definition withFinishedAt (t : Time.Time) (i : RequestInfo) : RequestInfo :=
  {| ReceivedAt := ReceivedAt i; AppRequestStartedAt := AppRequestStartedAt i;
     AppRequestFinishedAt := t; RoutePool := RoutePool i;
     RouteEndpoint := RouteEndpoint i;
     BackendReqHeaders := BackendReqHeaders i |}.

Definition withBackendReqHeaders (h : loc) (i : RequestInfo) : RequestInfo :=
  {| ReceivedAt := ReceivedAt i; AppRequestStartedAt := AppRequestStartedAt i;
     AppRequestFinishedAt := AppRequestFinishedAt i; RoutePool := RoutePool i;
     RouteEndpoint := RouteEndpoint i; BackendReqHeaders := Some h |}.

Definition withRwHeader (f : Http.Header -> Http.Header)
    (w : ResponseWriter) : ResponseWriter :=
  {| rwHeader := f (rwHeader w); rwCalls := rwCalls w;
     rwIsProxyWriter := rwIsProxyWriter w;
     rwFullDuplexErr := rwFullDuplexErr w; rwFullDuplex := rwFullDuplex w |}.

Definition withCall (c : WriterCall) (w : ResponseWriter) : ResponseWriter :=
  {| rwHeader := rwHeader w; rwCalls := (rwCalls w ++ [c])%list;
     rwIsProxyWriter := rwIsProxyWriter w;
     rwFullDuplexErr := rwFullDuplexErr w; rwFullDuplex := rwFullDuplex w |}.

Definition withFullDuplex (w : ResponseWriter) : ResponseWriter :=
  {| rwHeader := rwHeader w; rwCalls := rwCalls w;
     rwIsProxyWriter := rwIsProxyWriter w;
     rwFullDuplexErr := rwFullDuplexErr w; rwFullDuplex := true |}.

(* ===================================================================== *)
(** ** Handlers as state transformers that return or panic *)
(* ===================================================================== *)

Inductive Outcome (A : Type) :=
| Returned (a : A)
| Panicked (v : PanicValue).

Arguments Returned {A} a.
Arguments Panicked {A} v.

Definition Go (A : Type) : Type := State -> Outcome A * State.

#[global] Instance Go_ret : MRet Go := fun A a s => (Returned a, s).

#[global] Instance Go_bind : MBind Go := fun A B f m s =>
  match m s with
  | (Returned a, s') => f a s'
  | (Panicked v, s') => (Panicked v, s')
  end.

(** [panic(v)] *)
Definition panic {A} (v : PanicValue) : Go A := fun s => (Panicked v, s).

(** [defer func() { if rec := recover(); rec != nil { h(rec) } }()] around
    [body]: a panic of [body] runs [h] on the state the panic left. *)
Definition deferRecover (body : Go unit) (h : PanicValue -> Go unit) : Go unit :=
  fun s =>
    match body s with
    | (Returned tt, s') => (Returned tt, s')
    | (Panicked v, s') => h v s'
    end.

Definition gets {A} (f : State -> A) : Go A := fun s => (Returned (f s), s).
Definition modify (f : State -> State) : Go unit := fun s => (Returned tt, f s).

(** [logger.Error(msg, err)] *)
Definition loggerError (msg err : string) : Go unit :=
  modify (addLog {| level := ErrorLevel; message := msg; detail := err |}).

(** [logger.Panic(msg, err)] writes the entry and then panics with the
    message, a string. *)
Definition loggerPanic {A} (msg err : string) : Go A :=
  modify (addLog {| level := PanicLevel; message := msg; detail := err |}) ;;
  panic (OtherValue msg).

(** [rw.Header().Set(key, value)] *)
Definition rwHeaderSet (key value : string) : Go unit :=
  modify (setRw (withRwHeader (fun h => Http.Set_ h key value))).

(** [rw.WriteHeader(code)] and [rw.Write(b)] *)
Definition rwWriteHeader (code : Z) : Go unit :=
  modify (setRw (withCall (CallWriteHeader code))).
Definition rwWrite (b : string) : Go unit :=
  modify (setRw (withCall (CallWrite b))).

(** [rw.(utils.ProxyResponseWriter)]: the type assertion panics with a
    [*runtime.TypeAssertionError] when the writer is of another type. *)
Definition assertProxyResponseWriter : Go unit :=
  w ← gets rw;
  if rwIsProxyWriter w then mret tt
  else panic (ErrorValue "interface conversion: http.ResponseWriter is not utils.ProxyResponseWriter").

(** [http.NewResponseController(rw).EnableFullDuplex()] returns its error. *)
Definition EnableFullDuplex : Go (option string) :=
  w ← gets rw;
  match rwFullDuplexErr w with
  | Some e => mret (Some e)
  | None => modify (setRw withFullDuplex) ;; mret None
  end.

(** [r.Close = b] *)
Definition setClose (b : bool) : Go unit := modify (setReq (withClose b)).

(** The header map of the request; the nil map reads as the empty one. *)
Definition requestHeader (s : State) : Http.Header :=
  default ∅ (hdrs s !! Header (req s)).

(** [r.Header.Set(key, value)]: an assignment into the nil map panics. *)
Definition requestHeaderSet (key value : string) : Go unit :=
  r ← gets req;
  hs ← gets hdrs;
  match hs !! Header r with
  | Some h => modify (setHdrs <[Header r := Http.Set_ h key value]>)
  | None => panic (ErrorValue "assignment to entry in nil map")
  end.

(** [r.Header.Del(key)]: deleting from the nil map does nothing. *)
Definition requestHeaderDel (key : string) : Go unit :=
  r ← gets req;
  hs ← gets hdrs;
  match hs !! Header r with
  | Some h => modify (setHdrs <[Header r := Http.Del h key]>)
  | None => mret tt
  end.

(** [rh.reporter.CaptureX(...)] *)
Definition capture (m : Metric) : Go unit := modify (addMetric m).

Section WithClock.
Context `{clock : Time.Clock}.

(** The [n]-th reading of the clocks, as a [time.Time]. *)
Definition reading (n : nat) : Time.Time :=
  {| Time.unixNano := Time.wallAt n; Time.monotonic := Some (Time.monoAt n) |}.

(** [time.Now()]: one more reading of the two clocks. *)
Definition Now : Go Time.Time := fun s =>
  (Returned (reading (clockReads s)), setClockReads (S (clockReads s)) s).

End WithClock.

(** Modelled from the spec: [handlers.ContextRequestInfo] is not among the
    sources.  By the spec a single RequestInfo object is attached to the
    request and readable by all later handlers, and a reader reports it when
    it is absent: the result is the attached object or an error. *)
Definition ContextRequestInfo (s : State) : loc + string :=
  match ctxRequestInfo (req s) with
  | Some p => if decide (is_Some (infos s !! p)) then inl p
              else inr "RequestInfo not set on context"
  | None => inr "RequestInfo not set on context"
  end.

(** Reading and writing through a [*RequestInfo]; a nil pointer panics. *)
Definition readInfo (p : loc) : Go RequestInfo :=
  store ← gets infos;
  match store !! p with
  | Some i => mret i
  | None => panic (ErrorValue "invalid memory address or nil pointer dereference")
  end.

Definition writeInfo (p : loc) (f : RequestInfo -> RequestInfo) : Go unit :=
  i ← readInfo p;
  modify (setInfos <[p := f i]>).

(* ===================================================================== *)
(** ** Package [handlers] *)
(* ===================================================================== *)

Module Handlers.

(** The text of the error that the panic guard logs: the panic value itself
    when it is an [error], [fmt.Errorf("%v", rec)] otherwise. *)
Definition errorOf (rec : PanicValue) : string :=
  match rec with
  | ErrAbortHandler => "net/http: abort Handler"
  | ErrorValue text => text
  | OtherValue text => text
  end.

(** [panicCheck.ServeHTTP] *)
Definition panicCheck_ServeHTTP (next : Go unit) : Go unit :=
  deferRecover next (fun rec =>
    if decide (rec = ErrAbortHandler) then
      panic ErrAbortHandler
    else
      loggerError "panic-check" (errorOf rec) ;;
      modify (setHealthField Health.Degraded) ;;
      rwWriteHeader Http.StatusServiceUnavailable ;;
      setClose true).

(** The body of the healthy answer, ["ok\n"]. *)
Definition okBody : string := String "o" (String "k" (String "010" EmptyString)).

(** [healthcheck.ServeHTTP] *)
Definition healthcheck_ServeHTTP : Go unit :=
  rwHeaderSet "Cache-Control" "private, max-age=0" ;;
  rwHeaderSet "Expires" "0" ;;
  h ← gets health;
  if negb (bool_decide (h = Health.Healthy)) then
    rwWriteHeader Http.StatusServiceUnavailable ;;
    setClose true
  else
    rwWriteHeader Http.StatusOK ;;
    rwWrite okBody ;;
    setClose true.

(** [reporterHandler.ServeHTTP] *)
Definition reporter_ServeHTTP (next : Go unit) : Go unit :=
  ctx ← gets ContextRequestInfo;
  match ctx with
  | inr err => loggerPanic "request-info-err" err
  | inl requestInfo =>
      h ← gets requestHeader;
      (if String.eqb (Http.Get h "Content-Length") "" then
         capture CaptureMissingContentLengthHeader
       else mret tt) ;;
      next ;;
      info ← readInfo requestInfo;
      match RouteEndpoint info with
      | None => mret tt
      | Some endpoint =>
          assertProxyResponseWriter ;;
          proxyWriter ← gets rw;
          capture (CaptureRoutingResponse (Status proxyWriter)) ;;
          if Time.Equal (AppRequestFinishedAt info) Time.zero then mret tt
          else
            proxyWriter ← gets rw;
            capture (CaptureRoutingResponseLatency endpoint (Status proxyWriter)
                       (ReceivedAt info)
                       (Time.Sub (AppRequestFinishedAt info) (ReceivedAt info)))
      end
  end.

End Handlers.

(* ===================================================================== *)
(** ** Package [proxy] *)
(* ===================================================================== *)

Module Proxy.

(** The transport templates that [NewProxy] hands to the round-tripper
    factory. *)
Record FactoryImpl := {
  BackendTemplate : Http.Transport;
  RouteServiceTemplate : Http.Transport;
  IsInstrumented : bool;
}.

(** The [dialer] and the [roundTripperFactory] of [NewProxy]. *)
Definition dialer (cfg : Config.Config) : Http.Dialer :=
  {| Http.Timeout := Config.EndpointDialTimeout cfg;
     Http.KeepAlive := Config.EndpointKeepAliveProbeInterval cfg |}.

Definition roundTripperFactory (cfg : Config.Config)
    (backendTLSConfig routeServiceTLSConfig : option loc) : FactoryImpl :=
  {| BackendTemplate :=
       {| Http.DialContext := Some (dialer cfg);
          Http.DisableKeepAlives := Config.DisableKeepAlives cfg;
          Http.MaxIdleConns := Config.MaxIdleConns cfg;
          Http.IdleConnTimeout := 90 * Time.Second;
          Http.MaxIdleConnsPerHost := Config.MaxIdleConnsPerHost cfg;
          Http.DisableCompression := true;
          Http.TLSClientConfig := backendTLSConfig;
          Http.TLSHandshakeTimeout := Config.TLSHandshakeTimeout cfg;
          Http.ExpectContinueTimeout := 1 * Time.Second |};
     RouteServiceTemplate :=
       {| Http.DialContext := Some (dialer cfg);
          Http.DisableKeepAlives := Config.DisableKeepAlives cfg;
          Http.MaxIdleConns := Config.MaxIdleConns cfg;
          Http.IdleConnTimeout := 90 * Time.Second;
          Http.MaxIdleConnsPerHost := Config.MaxIdleConnsPerHost cfg;
          Http.DisableCompression := true;
          Http.TLSClientConfig := routeServiceTLSConfig;
          Http.TLSHandshakeTimeout := 0;
          Http.ExpectContinueTimeout := 1 * Time.Second |};
     IsInstrumented := Config.SendHttpStartStopClientEvent cfg |}.

(** The interface [RouteServiceValidator].  Its methods read the request,
    which lives in the state; [ArrivedViaRouteService] answers with a flag
    or an error. *)
Class RouteServiceValidator (V : Type) := {
  ArrivedViaRouteService : V -> State -> bool + string;
  IsRouteServiceTraffic : V -> State -> bool;
}.

(** [SkipSanitizeXFP(routeServiceValidator)] *)
Definition SkipSanitizeXFP `{RouteServiceValidator V} (v : V) : State -> bool :=
  fun s => IsRouteServiceTraffic v s.

(** [SkipSanitize(routeServiceValidator)] *)
Definition SkipSanitize `{RouteServiceValidator V} (v : V) : State -> bool :=
  fun s => IsRouteServiceTraffic v s && bool_decide (TLS (req s) ≠ None).

(** [escapePathAndPreserveSlashes(unescaped)] *)
Definition escapePathAndPreserveSlashes (unescaped : string) : string :=
  let parts := Strings.Split unescaped "/" in
  let escapedPath :=
    fold_left (fun escapedPath part =>
                 let escapedPart := Url.PathEscape part in
                 escapedPath ++ escapedPart ++ "/")
              parts "" in
  Strings.TrimSuffix escapedPath "/".

(** Modelled from the spec: the constant [router_http.CfAppInstance] is
    declared outside the sources; the spec names the header
    [X-CF-App-Instance]. *)
Definition CfAppInstance : string := "X-CF-App-Instance".

Section WithClock.
Context `{clock : Time.Clock}.

(** [proxy.ServeHTTP] *)
Definition ServeHTTP (cfg : Config.Config) (next : Go unit) : Go unit :=
  assertProxyResponseWriter ;;
  request ← gets req;
  (if Config.EnableHTTP1ConcurrentReadWrite cfg && (ProtoMajor request =? 1) then
     err ← EnableFullDuplex;
     match err with
     | Some e => loggerPanic "enable-full-duplex-err" e
     | None => mret tt
     end
   else mret tt) ;;
  ctx ← gets ContextRequestInfo;
  match ctx with
  | inr err => loggerPanic "request-info-err" err
  | inl reqInfo =>
      info ← readInfo reqInfo;
      (if RoutePool info is None then
         loggerPanic "request-info-err" "failed-to-access-RoutePool"
       else mret tt) ;;
      t ← Now;
      writeInfo reqInfo (withStartedAt t) ;;
      next ;;
      t ← Now;
      writeInfo reqInfo (withFinishedAt t)
  end.

(** [setRequestXRequestStart(request)] *)
Definition setRequestXRequestStart : Go unit :=
  request ← gets req;
  hs ← gets hdrs;
  match hs !! Header request ≫= (.!! Http.CanonicalHeaderKey "X-Request-Start") with
  | Some _ => mret tt
  | None =>
      t ← Now;
      requestHeaderSet "X-Request-Start"
        (Strconv.FormatInt (Z.quot (Time.UnixNano t) 1000000))
  end.

(** [proxy.setupProxyRequest(target)] *)
Definition setupProxyRequest : Go unit :=
  ctx ← gets ContextRequestInfo;
  match ctx with
  | inr err => loggerPanic "request-info-err" err
  | inl reqInfo =>
      target ← gets req;
      writeInfo reqInfo (withBackendReqHeaders (Header target)) ;;
      modify (setReq (withURL (withScheme "http"))) ;;
      modify (setReq (withURL (withHost (Host target)))) ;;
      modify (setReq (withURL (withForceQuery false))) ;;
      modify (setReq (withURL (withOpaque (RequestURI target)))) ;;
      (if Strings.HasPrefix (RequestURI target) "//" then
         let path := escapePathAndPreserveSlashes (Url.Path (URL target)) in
         modify (setReq (withURL (withOpaque ("//" ++ Host target ++ path)))) ;;
         u ← gets (fun s => URL (req s));
         if decide (0 < size (Url.Query u))%nat then
           modify (setReq (withURL (withOpaque
             (Url.Opaque u ++ "?" ++ Url.Encode (Url.Query u)))))
         else mret tt
       else mret tt) ;;
      modify (setReq (withURL (withRawQuery ""))) ;;
      setRequestXRequestStart ;;
      requestHeaderDel CfAppInstance
  end.

End WithClock.

End Proxy.

(* ===================================================================== *)
(** ** States between the steps of a handler *)
(* ===================================================================== *)

(** The state in which the reporter calls [next]: the state it was entered
    in, with the missing-Content-Length metric captured when the request has
    no such header. *)
Definition reporterEntry (s : State) : State :=
  if String.eqb (Http.Get (requestHeader s) "Content-Length") ""
  then addMetric CaptureMissingContentLengthHeader s
  else s.

(** The state in which the last stage calls [next], for a request whose
    RequestInfo [info] sits at [p]: full duplex switched on when the
    configuration asks for it on HTTP/1, the clock read once, and the reading
    stored as the start time. *)
Definition serveEntry `{clock : Time.Clock} (cfg : Config.Config) (p : loc)
    (info : RequestInfo) (s : State) : State :=
  let s0 := if Config.EnableHTTP1ConcurrentReadWrite cfg && (ProtoMajor (req s) =? 1)
            then setRw withFullDuplex s else s in
  setInfos <[p := withStartedAt (reading (clockReads s)) info]>
    (setClockReads (S (clockReads s)) s0).

(** What the director makes of a path, said byte by byte: a slash stays a
    slash, every other byte is written as [url.PathEscape] writes it. *)
Fixpoint escapeKeepingSlashes (path : string) : string :=
  match path with
  | EmptyString => EmptyString
  | String c rest =>
      (if Ascii.eqb c "/" then "/" else Url.escapeByte Url.encodePathSegment c)
      ++ escapeKeepingSlashes rest
  end.

(** The query that the director appends to [Opaque] for a request target
    that begins with two slashes: the parameters parsed and encoded again
    behind a question mark, nothing when there is no parameter. *)
Definition reencodedQuery (u : Url.URL) : string :=
  if decide (0 < size (Url.Query u))%nat
  then "?" ++ Url.Encode (Url.Query u)
  else "".

(** The URL with which the director leaves a request [target]. *)
Definition directedURL (target : Request) : Url.URL :=
  {| Url.Scheme := "http";
     Url.Opaque :=
       if Strings.HasPrefix (RequestURI target) "//"
       then "//" ++ Host target
            ++ escapeKeepingSlashes (Url.Path (URL target))
            ++ reencodedQuery (URL target)
       else RequestURI target;
     Url.Host := Host target;
     Url.Path := Url.Path (URL target);
     Url.ForceQuery := false;
     Url.RawQuery := "" |}.

(** The header map with which [setRequestXRequestStart] leaves a request
    whose header map was [h], when the wall clock shows [now] nanoseconds. *)
Definition stampedHeader (h : Http.Header) (now : Z) : Http.Header :=
  match h !! "X-Request-Start" with
  | Some _ => h
  | None => <["X-Request-Start" := [Strconv.FormatInt (Z.quot now 1000000)]]> h
  end.

(* ===================================================================== *)
(** ** Concrete inputs *)
(* ===================================================================== *)

Module Sample.

(** A clock that advances one millisecond per reading. *)
Lemma ticks_nondecreasing (i j : nat) :
  (i <= j)%nat -> Z.of_nat i * 1000000 <= Z.of_nat j * 1000000.
Proof. lia. Qed.

Definition clock : Time.Clock :=
  {| Time.wallAt := fun n => 1700000000000000000 + Z.of_nat n * 1000000;
     Time.monoAt := fun n => Z.of_nat n * 1000000;
     Time.monoAt_nondecreasing := ticks_nondecreasing |}.

(** A configuration with the handshake timeout of ten seconds. *)
Definition cfg : Config.Config :=
  {| Config.EndpointDialTimeout := 5 * Time.Second;
     Config.EndpointKeepAliveProbeInterval := 1 * Time.Second;
     Config.DisableKeepAlives := false;
     Config.MaxIdleConns := 100;
     Config.MaxIdleConnsPerHost := 2;
     Config.TLSHandshakeTimeout := 10 * Time.Second;
     Config.SendHttpStartStopClientEvent := false;
     Config.EnableHTTP1ConcurrentReadWrite := true |}.

Definition receivedAt : Time.Time :=
  {| Time.unixNano := 1699999999000000000; Time.monotonic := Some (-5) |}.

(** The RequestInfo of a request whose pool was looked up and for which no
    endpoint has been chosen yet. *)
Definition info : RequestInfo :=
  {| ReceivedAt := receivedAt;
     AppRequestStartedAt := Time.zero;
     AppRequestFinishedAt := Time.zero;
     RoutePool := Some 7%positive;
     RouteEndpoint := None;
     BackendReqHeaders := None |}.

Definition writer : ResponseWriter :=
  {| rwHeader := ∅; rwCalls := []; rwIsProxyWriter := true;
     rwFullDuplexErr := None; rwFullDuplex := false |}.

(** [GET /x?b=2&a=1 HTTP/1.1] for [app.example.com] over TLS, asking for one
    instance. *)
Definition request : Request :=
  {| Header := 1%positive;
     Host := "app.example.com";
     RequestURI := "/x?b=2&a=1";
     URL := {| Url.Scheme := ""; Url.Opaque := ""; Url.Host := "";
               Url.Path := "/x"; Url.ForceQuery := false;
               Url.RawQuery := "b=2&a=1" |};
     TLS := Some 9%positive;
     Close := false;
     ProtoMajor := 1;
     ctxRequestInfo := Some 2%positive |}.

Definition headers : Http.Header :=
  {[ "User-Agent" := ["curl/8.0"]; "X-Cf-App-Instance" := ["app-guid:0"] ]}.

Definition state : State :=
  {| req := request;
     hdrs := {[ 1%positive := headers ]};
     infos := {[ 2%positive := info ]};
     rw := writer;
     health := Health.Healthy;
     clockReads := 0;
     metrics := [];
     logs := [] |}.

(** [GET //foo/bar?b=2&a=1 HTTP/1.1]: the server parses a request target
    that begins with two slashes as a path. *)
Definition slashRequest : Request :=
  {| Header := 1%positive;
     Host := "app.example.com";
     RequestURI := "//foo/bar?b=2&a=1";
     URL := {| Url.Scheme := ""; Url.Opaque := ""; Url.Host := "";
               Url.Path := "//foo/bar"; Url.ForceQuery := false;
               Url.RawQuery := "b=2&a=1" |};
     TLS := None;
     Close := false;
     ProtoMajor := 1;
     ctxRequestInfo := Some 2%positive |}.

Definition slashState : State := setReq (fun _ => slashRequest) state.

Definition degradedState : State := setHealthField Health.Degraded state.

(** A downstream handler that chooses endpoint 5, answers 200 and reads the
    clock once. *)
Definition backendOK : Go unit :=
  modify (setInfos (fun m =>
    match m !! 2%positive with
    | Some i => <[2%positive :=
        {| ReceivedAt := ReceivedAt i;
           AppRequestStartedAt := AppRequestStartedAt i;
           AppRequestFinishedAt := AppRequestFinishedAt i;
           RoutePool := RoutePool i; RouteEndpoint := Some 5%positive;
           BackendReqHeaders := BackendReqHeaders i |}]> m
    | None => m
    end)) ;;
  rwWriteHeader Http.StatusOK ;;
  modify (fun s => setClockReads (S (clockReads s)) s).

(** The last stage of the pipeline in front of that handler. *)
Definition served : Go unit := Proxy.ServeHTTP (clock := clock) cfg backendOK.

(** The state in which [served] returns to the reporter, and the
    RequestInfo in it. *)
Definition afterServed : State := (served (reporterEntry state)).2.

Definition servedInfo : RequestInfo :=
  {| ReceivedAt := receivedAt;
     AppRequestStartedAt := reading (clock := clock) 0;
     AppRequestFinishedAt := reading (clock := clock) 2;
     RoutePool := Some 7%positive;
     RouteEndpoint := Some 5%positive;
     BackendReqHeaders := None |}.

(** A downstream handler that panics with an error of its own. *)
Definition crash : Go unit := panic (ErrorValue "boom").

(** A validator that takes requests with a signature header for
    route-service traffic. *)
Definition signatureValidator : Proxy.RouteServiceValidator unit :=
  {| Proxy.ArrivedViaRouteService := fun _ s =>
       inl (bool_decide (is_Some (requestHeader s !! "X-Cf-Proxy-Signature")));
     Proxy.IsRouteServiceTraffic := fun _ s =>
       bool_decide (is_Some (requestHeader s !! "X-Cf-Proxy-Signature")) |}.

End Sample.

(* ===================================================================== *)
(** ** More of package [proxy]: the XFCC override and the handler chain *)
(* ===================================================================== *)

Module Chain.

(** Modelled from the spec: the constants [config.SANITIZE_SET] and
    [config.ALWAYS_FORWARD] are declared outside the sources; the spec names
    the policies [always_forward], [forward], [sanitize_set] and
    [always_sanitize]. *)
Definition SANITIZE_SET : string := "sanitize_set".
Definition ALWAYS_FORWARD : string := "always_forward".

(** [ForceDeleteXFCCHeader(routeServiceValidator, forwardedClientCert,
    logger)]: the answer and the error of the function it returns. *)
Definition ForceDeleteXFCCHeader `{Proxy.RouteServiceValidator V} (v : V)
    (forwardedClientCert : string) : State -> bool * option string :=
  fun s =>
    match Proxy.ArrivedViaRouteService v s with
    | inr err => (false, Some err)
    | inl valid =>
        (valid && negb (String.eqb forwardedClientCert SANITIZE_SET)
         && negb (String.eqb forwardedClientCert ALWAYS_FORWARD), None)
    end.

(** A [negroni.Handler]: a handler that is given the rest of the chain. *)
Definition Middleware : Type := Go unit -> Go unit.

(** [negroni.Wrap(handler)]: run the [http.Handler], then the rest. *)
Definition Wrap (handler : Go unit) : Middleware :=
  fun next => handler ;; next.

(** The handler that [negroni] builds from the handlers given to [Use], in
    their order: each one gets the following ones as its [next], the last
    one gets a handler that does nothing. *)
Definition build (handlers : list Middleware) : Go unit :=
  fold_right (fun (h : Middleware) (next : Go unit) => h next) (mret tt) handlers.

(** The handlers of the chain that are made outside the sources, and the
    reverse proxy at its end. *)
Record Collaborators := {
  requestInfo : Middleware;
  proxyWriter : Middleware;
  zipkin : Middleware;
  w3c : Middleware;
  vcapRequestIdHeader : Middleware;
  httpStartStop : Middleware;
  httpLatencyPrometheus : Middleware;
  accessLog : Middleware;
  queryParam : Middleware;
  httpRewrite : Middleware;
  proxyHealthcheck : Middleware;
  protocolCheck : Middleware;
  lookup : Middleware;
  maxRequestSize : Middleware;
  clientCert : Middleware;
  hopByHop : Middleware;
  xForwardedProto : Middleware;
  routeService : Middleware;
  rproxy : Go unit;
}.

(** What [NewProxy] reads to decide on the two optional handlers:
    [cfg.SendHttpStartStopServerEvent], [p.promRegistry != nil] and
    [cfg.PerAppPrometheusHttpMetricsReporting]. *)
Record Options := {
  SendHttpStartStopServerEvent : bool;
  promRegistryIsSet : bool;
  PerAppPrometheusHttpMetricsReporting : bool;
}.

(** The handlers that [NewProxy] passes to [n.Use], in order, with
    [n.UseHandler(rproxy)] last. *)
Definition handlersOf `{clock : Time.Clock} (cfg : Config.Config)
    (opts : Options) (c : Collaborators) : list Middleware :=
  ([Handlers.panicCheck_ServeHTTP; requestInfo c; proxyWriter c; zipkin c;
    w3c c; vcapRequestIdHeader c]
   ++ (if SendHttpStartStopServerEvent opts then [httpStartStop c] else [])
   ++ (if promRegistryIsSet opts then
         if PerAppPrometheusHttpMetricsReporting opts
         then [httpLatencyPrometheus c] else []
       else [])
   ++ [accessLog c; queryParam c; Handlers.reporter_ServeHTTP; httpRewrite c;
       proxyHealthcheck c; protocolCheck c; lookup c; maxRequestSize c;
       clientCert c; hopByHop c; xForwardedProto c; routeService c;
       Proxy.ServeHTTP cfg; Wrap (rproxy c)])%list.

(** The handler that [NewProxy] returns. *)
Definition NewProxy `{clock : Time.Clock} (cfg : Config.Config)
    (opts : Options) (c : Collaborators) : Go unit :=
  build (handlersOf cfg opts c).

End Chain.

(* ===================================================================== *)
(** ** Package [fakes]: the recording round tripper *)
(* ===================================================================== *)

Module Fakes.

(** A [*http.Request] or [*http.Response], nil included. *)
Abbreviation ptr := (option loc).

(** The pair [(result1, result2)] of a response and an error. *)
Record Returns := { result1 : ptr; result2 : option string }.

(** [fakes.RoundTripper] without its two mutexes: the calls below are taken
    one at a time.  A stub is taken for a function of its argument; a nil
    stub, a nil map of returns and a nil map of invocations are [None]. *)
Record RoundTripper := {
  RoundTripStub : option (ptr -> Returns);
  roundTripArgsForCall : list ptr;
  roundTripReturns : Returns;
  roundTripReturnsOnCall : option (gmap Z Returns);
  invocations : option (gmap string (list (list ptr)));
}.

(** [new(RoundTripper)] *)
Definition zero : RoundTripper :=
  {| RoundTripStub := None;
     roundTripArgsForCall := [];
     roundTripReturns := {| result1 := None; result2 := None |};
     roundTripReturnsOnCall := None;
     invocations := None |}.

(** [fake.recordInvocation(key, args)] *)
Definition recordInvocation (key : string) (args : list ptr)
    (fake : RoundTripper) : RoundTripper :=
  let made := default ∅ (invocations fake) in
  let made := match made !! key with
              | None => <[key := []]> made
              | Some _ => made
              end in
  {| RoundTripStub := RoundTripStub fake;
     roundTripArgsForCall := roundTripArgsForCall fake;
     roundTripReturns := roundTripReturns fake;
     roundTripReturnsOnCall := roundTripReturnsOnCall fake;
     invocations := Some (<[key := (default [] (made !! key) ++ [args])%list]> made) |}.

(** [fake.RoundTrip(arg1)]: the fake after the call and what the call
    returns. *)
Definition RoundTrip (fake : RoundTripper) (arg1 : ptr) : RoundTripper * Returns :=
  let specificReturn :=
    roundTripReturnsOnCall fake
      ≫= (.!! Z.of_nat (length (roundTripArgsForCall fake))) in
  let appended :=
    {| RoundTripStub := RoundTripStub fake;
       roundTripArgsForCall := (roundTripArgsForCall fake ++ [arg1])%list;
       roundTripReturns := roundTripReturns fake;
       roundTripReturnsOnCall := roundTripReturnsOnCall fake;
       invocations := invocations fake |} in
  let stub := RoundTripStub fake in
  let fakeReturns := roundTripReturns fake in
  (recordInvocation "RoundTrip" [arg1] appended,
   match stub with
   | Some f => f arg1
   | None =>
       match specificReturn with
       | Some ret => ret
       | None => fakeReturns
       end
   end).

(** [fake.RoundTripCallCount()] *)
Definition RoundTripCallCount (fake : RoundTripper) : Z :=
  Z.of_nat (length (roundTripArgsForCall fake)).

(** [fake.RoundTripCalls(stub)] *)
Definition RoundTripCalls (stub : option (ptr -> Returns))
    (fake : RoundTripper) : RoundTripper :=
  {| RoundTripStub := stub;
     roundTripArgsForCall := roundTripArgsForCall fake;
     roundTripReturns := roundTripReturns fake;
     roundTripReturnsOnCall := roundTripReturnsOnCall fake;
     invocations := invocations fake |}.

(** [fake.RoundTripArgsForCall(i)]; [None] is the panic of an index out of
    range. *)
Definition RoundTripArgsForCall (fake : RoundTripper) (i : Z) : option ptr :=
  if 0 <=? i then roundTripArgsForCall fake !! Z.to_nat i else None.

(** [fake.RoundTripReturns(result1, result2)] *)
Definition RoundTripReturns (r1 : ptr) (r2 : option string)
    (fake : RoundTripper) : RoundTripper :=
  {| RoundTripStub := None;
     roundTripArgsForCall := roundTripArgsForCall fake;
     roundTripReturns := {| result1 := r1; result2 := r2 |};
     roundTripReturnsOnCall := roundTripReturnsOnCall fake;
     invocations := invocations fake |}.

(** [fake.RoundTripReturnsOnCall(i, result1, result2)] *)
Definition RoundTripReturnsOnCall (i : Z) (r1 : ptr) (r2 : option string)
    (fake : RoundTripper) : RoundTripper :=
  {| RoundTripStub := None;
     roundTripArgsForCall := roundTripArgsForCall fake;
     roundTripReturns := roundTripReturns fake;
     roundTripReturnsOnCall :=
       Some (<[i := {| result1 := r1; result2 := r2 |}]>
               (default ∅ (roundTripReturnsOnCall fake)));
     invocations := invocations fake |}.

(** [fake.Invocations()]: a fresh map with the entries recorded so far. *)
Definition Invocations (fake : RoundTripper) : gmap string (list (list ptr)) :=
  default ∅ (invocations fake).

(** What a test does with the fake, one call after the other. *)
Inductive Call :=
| DoRoundTrip (arg1 : ptr)
| DoRoundTripCalls (stub : option (ptr -> Returns))
| DoRoundTripReturns (r1 : ptr) (r2 : option string)
| DoRoundTripReturnsOnCall (i : Z) (r1 : ptr) (r2 : option string).

Definition step (fake : RoundTripper) (c : Call) : RoundTripper :=
  match c with
  | DoRoundTrip arg1 => (RoundTrip fake arg1).1
  | DoRoundTripCalls stub => RoundTripCalls stub fake
  | DoRoundTripReturns r1 r2 => RoundTripReturns r1 r2 fake
  | DoRoundTripReturnsOnCall i r1 r2 => RoundTripReturnsOnCall i r1 r2 fake
  end.

Definition run (calls : list Call) (fake : RoundTripper) : RoundTripper :=
  fold_left step calls fake.

(** The arguments of the [RoundTrip] calls among [calls], in order. *)
Definition argsOf (calls : list Call) : list ptr :=
  omap (fun c => match c with DoRoundTrip arg1 => Some arg1 | _ => None end) calls.

End Fakes.

(* ===================================================================== *)
(** ** Predicates on the bytes of a string *)
(* ===================================================================== *)

(** Every byte of [s] passes the test [ok]. *)
Fixpoint allBytes (ok : ascii -> bool) (s : string) : bool :=
  match s with
  | EmptyString => true
  | String c rest => ok c && allBytes ok rest
  end.

(** A byte that [escapePathAndPreserveSlashes] writes as it is: a slash, or
    a byte that a path segment may hold unescaped. *)
Definition plainPathByte (c : ascii) : bool :=
  Ascii.eqb c "/" || negb (Url.shouldEscape c Url.encodePathSegment).

(** A byte that may stand in an escaped path: a plain one or the percent
    sign of an escape. *)
Definition escapedPathByte (c : ascii) : bool :=
  plainPathByte c || Ascii.eqb c "%".

(* ===================================================================== *)
(** ** Further concrete inputs *)
(* ===================================================================== *)

Module Inputs.

(** A downstream handler that panics as the server does for a client that
    went away. *)
Definition abort : Go unit := panic ErrAbortHandler.

(** The sample request before any RequestInfo was attached to it. *)
Definition bareRequest : Request :=
  {| Header := Header Sample.request; Host := Host Sample.request;
     RequestURI := RequestURI Sample.request; URL := URL Sample.request;
     TLS := TLS Sample.request; Close := Close Sample.request;
     ProtoMajor := ProtoMajor Sample.request; ctxRequestInfo := None |}.

Definition bareState : State := setReq (fun _ => bareRequest) Sample.state.

(** [GET //foo?a;b=1 HTTP/1.1]: the only pair of the query holds a
    semicolon. *)
Definition semicolonRequest : Request :=
  {| Header := 1%positive;
     Host := "app.example.com";
     RequestURI := "//foo?a;b=1";
     URL := {| Url.Scheme := ""; Url.Opaque := ""; Url.Host := "";
               Url.Path := "//foo"; Url.ForceQuery := false;
               Url.RawQuery := "a;b=1" |};
     TLS := None;
     Close := false;
     ProtoMajor := 1;
     ctxRequestInfo := Some 2%positive |}.

Definition semicolonState : State := setReq (fun _ => semicolonRequest) Sample.state.

(** The sample request on a writer that was not wrapped. *)
Definition plainWriterState : State :=
  setRw (fun w => {| rwHeader := rwHeader w; rwCalls := rwCalls w;
                     rwIsProxyWriter := false;
                     rwFullDuplexErr := rwFullDuplexErr w;
                     rwFullDuplex := rwFullDuplex w |}) Sample.state.

(** The sample request before the lookup found a pool. *)
Definition noPoolInfo : RequestInfo :=
  {| ReceivedAt := Sample.receivedAt;
     AppRequestStartedAt := Time.zero;
     AppRequestFinishedAt := Time.zero;
     RoutePool := None;
     RouteEndpoint := None;
     BackendReqHeaders := None |}.

Definition noPoolState : State :=
  setInfos (fun _ => {[ 2%positive := noPoolInfo ]}) Sample.state.

(** The state in which [Sample.backendOK] returns to the last stage when
    the reporter stands in front of that stage, and the RequestInfo in it. *)
Definition afterBackend : State :=
  (Sample.backendOK
     (serveEntry (clock := Sample.clock) Sample.cfg 2%positive Sample.info
        (reporterEntry Sample.state))).2.

Definition backendInfo : RequestInfo :=
  {| ReceivedAt := Sample.receivedAt;
     AppRequestStartedAt := reading (clock := Sample.clock) 0;
     AppRequestFinishedAt := Time.zero;
     RoutePool := Some 7%positive;
     RouteEndpoint := Some 5%positive;
     BackendReqHeaders := None |}.

(** The sample request when its receipt time was the first reading of the
    clocks: the state it comes in with, the state in which the backend
    returns, and the RequestInfo in each. *)
Definition timedInfo : RequestInfo :=
  {| ReceivedAt := reading (clock := Sample.clock) 0;
     AppRequestStartedAt := Time.zero;
     AppRequestFinishedAt := Time.zero;
     RoutePool := Some 7%positive;
     RouteEndpoint := None;
     BackendReqHeaders := None |}.

Definition timedState : State :=
  setClockReads 1 (setInfos (fun _ => {[ 2%positive := timedInfo ]}) Sample.state).

Definition afterTimedBackend : State :=
  (Sample.backendOK
     (serveEntry (clock := Sample.clock) Sample.cfg 2%positive timedInfo
        (reporterEntry timedState))).2.

Definition timedBackendInfo : RequestInfo :=
  {| ReceivedAt := reading (clock := Sample.clock) 0;
     AppRequestStartedAt := reading (clock := Sample.clock) 1;
     AppRequestFinishedAt := Time.zero;
     RoutePool := Some 7%positive;
     RouteEndpoint := Some 5%positive;
     BackendReqHeaders := None |}.

(** Collaborators that hand every request on untouched, in front of the
    reverse proxy [rproxy]. *)
Definition passThrough : Chain.Middleware := fun next => next.

Definition transparent (rproxy : Go unit) : Chain.Collaborators :=
  {| Chain.requestInfo := passThrough; Chain.proxyWriter := passThrough;
     Chain.zipkin := passThrough; Chain.w3c := passThrough;
     Chain.vcapRequestIdHeader := passThrough;
     Chain.httpStartStop := passThrough;
     Chain.httpLatencyPrometheus := passThrough;
     Chain.accessLog := passThrough; Chain.queryParam := passThrough;
     Chain.httpRewrite := passThrough; Chain.proxyHealthcheck := passThrough;
     Chain.protocolCheck := passThrough; Chain.lookup := passThrough;
     Chain.maxRequestSize := passThrough; Chain.clientCert := passThrough;
     Chain.hopByHop := passThrough; Chain.xForwardedProto := passThrough;
     Chain.routeService := passThrough; Chain.rproxy := rproxy |}.

End Inputs.

(* ===================================================================== *)
(** ** The library functions on known values *)
(* ===================================================================== *)

Example split_ex : Strings.Split "//a/b" "/" = [""; ""; "a"; "b"].
Proof. reflexivity. Qed.
Example split_empty : Strings.Split "" "/" = [""].
Proof. reflexivity. Qed.
Example trim_ex : Strings.TrimSuffix "ab//" "/" = "ab/".
Proof. reflexivity. Qed.
Example esc_ex : Url.PathEscape "a b;c" = "a%20b%3Bc".
Proof. reflexivity. Qed.
Example qesc_ex : Url.QueryEscape "a b&c" = "a+b%26c".
Proof. reflexivity. Qed.
Example unesc_ex : Url.QueryUnescape "a+b%26c%2" = None.
Proof. reflexivity. Qed.
Example unesc_ex2 : Url.QueryUnescape "a+b%26c" = Some "a b&c".
Proof. reflexivity. Qed.
Example enc_ex : Url.Encode (Url.ParseQuery "b=2&a=1&b=3&&c") = "a=1&b=2&b=3&c=".
Proof. vm_compute. reflexivity. Qed.
Example canon_xrs : Http.CanonicalHeaderKey "X-Request-Start" = "X-Request-Start".
Proof. reflexivity. Qed.
Example canon_mixed : Http.CanonicalHeaderKey "x-cF-app-INSTANCE" = "X-Cf-App-Instance".
Proof. reflexivity. Qed.
Example canon_invalid : Http.CanonicalHeaderKey "x bad" = "x bad".
Proof. reflexivity. Qed.
Example format_ex : Strconv.FormatInt 1700000000123 = "1700000000123".
Proof. reflexivity. Qed.
Example format_neg : Strconv.FormatInt (-42) = "-42".
Proof. reflexivity. Qed.
Example format_zero : Strconv.FormatInt 0 = "0".
Proof. reflexivity. Qed.
Example escape_path_ex :
  Proxy.escapePathAndPreserveSlashes "//a b/c;d/" = "//a%20b/c%3Bd/".
Proof. reflexivity. Qed.
Example zero_time_is_zero : Time.Equal Time.zero Time.zero = true.
Proof. reflexivity. Qed.

Example reporter_after_served :
  metrics (Handlers.reporter_ServeHTTP Sample.served Sample.state).2
  = [CaptureMissingContentLengthHeader; CaptureRoutingResponse 200;
     CaptureRoutingResponseLatency 5%positive 200 Sample.receivedAt 2000005].
Proof. vm_compute. reflexivity. Qed.
Example reporter_without_endpoint :
  metrics (Handlers.reporter_ServeHTTP (mret tt) Sample.state).2
  = [CaptureMissingContentLengthHeader].
Proof. vm_compute. reflexivity. Qed.

Example healthcheck_degraded :
  rwCalls (rw (Handlers.healthcheck_ServeHTTP Sample.degradedState).2)
  = [CallWriteHeader 503].
Proof. reflexivity. Qed.
Example skip_sanitize_unsigned :
  Proxy.SkipSanitize (H := Sample.signatureValidator) tt Sample.state = false.
Proof. vm_compute. reflexivity. Qed.

(* ===================================================================== *)
(** ** The transport templates *)
(* ===================================================================== *)

(** Apart from [TLSClientConfig] and [TLSHandshakeTimeout], the two
    templates are equal field by field, whatever the configuration. *)
Lemma templates_agree_elsewhere (cfg : Config.Config) (b r : option loc) :
  let f := Proxy.roundTripperFactory cfg b r in
  let bt := Proxy.BackendTemplate f in
  let rt := Proxy.RouteServiceTemplate f in
  Http.DialContext bt = Http.DialContext rt
  /\ Http.DisableKeepAlives bt = Http.DisableKeepAlives rt
  /\ Http.MaxIdleConns bt = Http.MaxIdleConns rt
  /\ Http.IdleConnTimeout bt = 90 * Time.Second
  /\ Http.IdleConnTimeout rt = 90 * Time.Second
  /\ Http.MaxIdleConnsPerHost bt = Http.MaxIdleConnsPerHost rt
  /\ Http.DisableCompression bt = true
  /\ Http.DisableCompression rt = true
  /\ Http.ExpectContinueTimeout bt = Http.ExpectContinueTimeout rt.
Proof. cbn. repeat split; reflexivity. Qed.

(** The route-service template never carries the configured handshake
    timeout: it keeps the zero value, which for a transport means no
    timeout. *)
Lemma route_service_handshake_timeout_zero (cfg : Config.Config) (b r : option loc) :
  Http.TLSHandshakeTimeout
    (Proxy.RouteServiceTemplate (Proxy.roundTripperFactory cfg b r)) = 0.
Proof. reflexivity. Qed.

(** C1 (the two templates differ only in their TLS configuration), at a
    configuration with a handshake timeout of ten seconds and the same TLS
    configuration for both templates: the backend template carries the ten
    seconds, the route-service template carries none, so the templates differ
    in a field that is not the TLS configuration. *)
Theorem templates_differ_in_handshake_timeout :
  let f := Proxy.roundTripperFactory Sample.cfg (Some 3%positive) (Some 3%positive) in
  Http.TLSClientConfig (Proxy.BackendTemplate f)
    = Http.TLSClientConfig (Proxy.RouteServiceTemplate f)
  /\ Http.TLSHandshakeTimeout (Proxy.BackendTemplate f) = 10000000000
  /\ Http.TLSHandshakeTimeout (Proxy.RouteServiceTemplate f) = 0
  /\ Proxy.BackendTemplate f <> Proxy.RouteServiceTemplate f.
Proof. cbn. repeat split; try reflexivity. intros E. discriminate E. Qed.

(* ===================================================================== *)
(** ** The override predicate of the client-certificate handler *)
(* ===================================================================== *)

(** C5: [SkipSanitize] answers true exactly for route-service traffic on a
    TLS connection, and false exactly when the request is no route-service
    traffic or its connection is not TLS. *)
Theorem skip_sanitize_iff `{Proxy.RouteServiceValidator V} (v : V) (s : State) :
  (Proxy.SkipSanitize v s = true
     <-> Proxy.IsRouteServiceTraffic v s = true /\ TLS (req s) <> None)
  /\ (Proxy.SkipSanitize v s = false
     <-> Proxy.IsRouteServiceTraffic v s = false \/ TLS (req s) = None).
Proof.
  unfold Proxy.SkipSanitize. split.
  - rewrite andb_true_iff, bool_decide_eq_true. reflexivity.
  - rewrite andb_false_iff, bool_decide_eq_false.
    split; (intros [Hr | Ht]; [left; exact Hr | right]).
    + destruct (TLS (req s)); [exfalso; apply Ht; discriminate | reflexivity].
    + rewrite Ht. intros Hne. apply Hne. reflexivity.
Qed.

(* ===================================================================== *)
(** ** Unfolding the handler combinators *)
(* ===================================================================== *)

Ltac go_unfold :=
  unfold mbind, mret, Go_bind, Go_ret, gets, modify, panic, deferRecover,
    loggerPanic, loggerError, rwHeaderSet, rwWriteHeader, rwWrite, setClose,
    capture, assertProxyResponseWriter, EnableFullDuplex, requestHeaderSet,
    requestHeaderDel, readInfo, writeInfo, Now.

Ltac go_run := repeat (progress (go_unfold; cbn)).

(* ===================================================================== *)
(** ** The panic guard *)
(* ===================================================================== *)

(** A handler that returns is not disturbed by the guard. *)
Lemma panic_guard_transparent (next : Go unit) (s s' : State) :
  next s = (Returned tt, s') ->
  Handlers.panicCheck_ServeHTTP next s = (Returned tt, s').
Proof.
  intros Hn. unfold Handlers.panicCheck_ServeHTTP, deferRecover.
  rewrite Hn. reflexivity.
Qed.

(** C3: when the downstream handler panics with [http.ErrAbortHandler] the
    guard panics with that same value, leaving the state as the panic left
    it; when it panics with any other value the guard returns, the health is
    Degraded, status 503 has been written and the request is marked for
    close. *)
Theorem panic_guard_recovers (next : Go unit) (s s1 : State) (v : PanicValue) :
  next s = (Panicked v, s1) ->
  (v = ErrAbortHandler ->
     Handlers.panicCheck_ServeHTTP next s = (Panicked ErrAbortHandler, s1))
  /\ (v <> ErrAbortHandler ->
     exists s2,
       Handlers.panicCheck_ServeHTTP next s = (Returned tt, s2)
       /\ health s2 = Health.Degraded
       /\ rwCalls (rw s2)
          = (rwCalls (rw s1) ++ [CallWriteHeader Http.StatusServiceUnavailable])%list
       /\ Close (req s2) = true).
Proof.
  intros Hn. unfold Handlers.panicCheck_ServeHTTP, deferRecover.
  rewrite Hn. split.
  - intros ->. reflexivity.
  - intros Hv. destruct (decide (v = ErrAbortHandler)) as [E | _];
      [contradiction |].
    eexists. split; [reflexivity |]. repeat split.
Qed.

Lemma panic_guard_recovers_witness :
  Sample.crash Sample.state = (Panicked (ErrorValue "boom"), Sample.state)
  /\ (ErrorValue "boom" = ErrAbortHandler ->
      Handlers.panicCheck_ServeHTTP Sample.crash Sample.state
      = (Panicked ErrAbortHandler, Sample.state))
  /\ (ErrorValue "boom" <> ErrAbortHandler ->
      exists s2,
        Handlers.panicCheck_ServeHTTP Sample.crash Sample.state = (Returned tt, s2)
        /\ health s2 = Health.Degraded
        /\ rwCalls (rw s2)
           = (rwCalls (rw Sample.state)
              ++ [CallWriteHeader Http.StatusServiceUnavailable])%list
        /\ Close (req s2) = true).
Proof.
  split; [reflexivity |].
  apply (panic_guard_recovers Sample.crash Sample.state Sample.state
           (ErrorValue "boom")).
  reflexivity.
Defined.

(* ===================================================================== *)
(** ** The health-check handler *)
(* ===================================================================== *)

(** The handler never panics, and what it does depends on the health only. *)
Lemma healthcheck_run (s : State) :
  Handlers.healthcheck_ServeHTTP s
  = (Returned tt,
     setReq (withClose true)
       (setRw (fun w =>
                 (if decide (health s = Health.Healthy)
                  then withCall (CallWrite Handlers.okBody)
                         (withCall (CallWriteHeader Http.StatusOK) w)
                  else withCall (CallWriteHeader Http.StatusServiceUnavailable) w))
          (setRw (withRwHeader (fun h =>
                    Http.Set_ (Http.Set_ h "Cache-Control" "private, max-age=0")
                      "Expires" "0")) s))).
Proof.
  unfold Handlers.healthcheck_ServeHTTP. go_run.
  destruct (decide (health s = Health.Healthy)) as [E | E].
  - rewrite bool_decide_eq_true_2 by exact E. reflexivity.
  - rewrite bool_decide_eq_false_2 by exact E. reflexivity.
Qed.

(** C6, as the code has it: on a healthy router the handler writes status
    200 and then the three bytes ["ok\n"], the word followed by a line feed;
    in any other health state it writes status 503 and nothing else, and
    marks the request for close. *)
Theorem healthcheck_answers (s : State) :
  exists s',
    Handlers.healthcheck_ServeHTTP s = (Returned tt, s')
    /\ (health s = Health.Healthy ->
        rwCalls (rw s')
        = (rwCalls (rw s) ++ [CallWriteHeader 200; CallWrite Handlers.okBody])%list
        /\ String.length Handlers.okBody = 3%nat
        /\ Handlers.okBody = "ok" ++ String (ascii_of_N 10) "")
    /\ (health s <> Health.Healthy ->
        rwCalls (rw s') = (rwCalls (rw s) ++ [CallWriteHeader 503])%list
        /\ Close (req s') = true).
Proof.
  eexists. split; [apply healthcheck_run |]. cbn. split.
  - intros Hh. destruct (decide (health s = Health.Healthy)); [| contradiction].
    cbn. rewrite <- app_assoc. repeat split.
  - intros Hh. destruct (decide (health s = Health.Healthy)); [contradiction |].
    cbn. repeat split.
Qed.

(** C6 as the claim words it fails: the body that a healthy router sends to
    a fresh writer is not the two bytes ["ok"]. *)
Lemma healthcheck_body_is_not_ok :
  health Sample.state = Health.Healthy
  /\ rwCalls (rw Sample.state) = []
  /\ bodyOf (rwCalls (rw (Handlers.healthcheck_ServeHTTP Sample.state).2)) <> "ok".
Proof. repeat split. vm_compute. discriminate. Qed.

(** C10: in both branches the handler returns with the response headers
    [Cache-Control: private, max-age=0] and [Expires: 0] set and the request
    marked for close, the healthy answer included. *)
Theorem healthcheck_headers_and_close (s : State) :
  exists s',
    Handlers.healthcheck_ServeHTTP s = (Returned tt, s')
    /\ rwHeader (rw s') !! "Cache-Control" = Some ["private, max-age=0"]
    /\ rwHeader (rw s') !! "Expires" = Some ["0"]
    /\ Close (req s') = true
    /\ Status (rw s')
       = (if decide (rwCalls (rw s) = []) then
            if decide (health s = Health.Healthy) then 200 else 503
          else Status (rw s)).
Proof.
  eexists. split; [apply healthcheck_run |]. cbn.
  destruct (decide (health s = Health.Healthy)); cbn.
  all: repeat split.
  all: try (unfold Http.Set_; cbn; by simplify_map_eq).
  all: unfold Status; cbn; destruct (rwCalls (rw s)) as [| [c | b] l]; reflexivity.
Qed.

(* ===================================================================== *)
(** ** The reporter *)
(* ===================================================================== *)

(** A request without RequestInfo makes the reporter panic before [next]
    runs. *)
Lemma reporter_without_request_info (next : Go unit) (s : State) (err : string) :
  ContextRequestInfo s = inr err ->
  exists s', Handlers.reporter_ServeHTTP next s = (Panicked (OtherValue "request-info-err"), s')
             /\ metrics s' = metrics s.
Proof.
  intros Hc. unfold Handlers.reporter_ServeHTTP. go_run. rewrite Hc. cbn.
  eexists. split; reflexivity.
Qed.

(** A panic of [next] passes through the reporter, which captures nothing
    after it. *)
Lemma reporter_next_panics (next : Go unit) (s s1 : State) (p : loc) (v : PanicValue) :
  ContextRequestInfo s = inl p ->
  next (reporterEntry s) = (Panicked v, s1) ->
  Handlers.reporter_ServeHTTP next s = (Panicked v, s1).
Proof.
  intros Hc Hn. unfold Handlers.reporter_ServeHTTP. go_run. rewrite Hc. cbn.
  unfold reporterEntry in Hn.
  destruct (String.eqb _ _); cbn; rewrite Hn; reflexivity.
Qed.

(** What the reporter captures once [next] has returned in state [s1], where
    [info] is the RequestInfo of the request: nothing without an endpoint,
    nothing when the writer is no proxy writer (the type assertion panics),
    the routing response alone when the finish time is the zero time, and the
    routing response followed by the latency otherwise. *)
Lemma reporter_run (next : Go unit) (s s1 : State) (p : loc) (info : RequestInfo) :
  ContextRequestInfo s = inl p ->
  next (reporterEntry s) = (Returned tt, s1) ->
  infos s1 !! p = Some info ->
  metrics (Handlers.reporter_ServeHTTP next s).2
  = (metrics s1 ++
     match RouteEndpoint info with
     | None => []
     | Some ep =>
         if rwIsProxyWriter (rw s1) then
           CaptureRoutingResponse (Status (rw s1))
           :: (if Time.Equal (AppRequestFinishedAt info) Time.zero then []
               else [CaptureRoutingResponseLatency ep (Status (rw s1))
                       (ReceivedAt info)
                       (Time.Sub (AppRequestFinishedAt info) (ReceivedAt info))])
         else []
     end)%list.
Proof.
  intros Hc Hn Hi. unfold Handlers.reporter_ServeHTTP. go_run. rewrite Hc. cbn.
  unfold reporterEntry in Hn.
  destruct (String.eqb _ _); cbn; rewrite Hn; go_run; rewrite Hi; go_run.
  all: destruct (RouteEndpoint info) as [ep |]; go_run;
    [| by rewrite app_nil_r].
  all: destruct (rwIsProxyWriter (rw s1)); go_run; [| by rewrite app_nil_r].
  all: destruct (Time.Equal _ _); go_run; [reflexivity |].
  all: by rewrite <- app_assoc.
Qed.

(** C9: after [next] has returned, the reporter adds [emitted] to the
    metrics.  Nothing is added when no endpoint was selected; a routing
    response is among them only when an endpoint was selected; a response
    latency is among them only when an endpoint was selected and the finish
    time is not the zero time, and then the routing response is there too.
    On a proxy writer both are in fact captured in these cases. *)
Theorem reporter_captures_only_with_endpoint
    (next : Go unit) (s s1 : State) (p : loc) (info : RequestInfo) :
  ContextRequestInfo s = inl p ->
  next (reporterEntry s) = (Returned tt, s1) ->
  infos s1 !! p = Some info ->
  exists emitted,
    metrics (Handlers.reporter_ServeHTTP next s).2 = (metrics s1 ++ emitted)%list
    /\ (RouteEndpoint info = None -> emitted = [])
    /\ (forall c, In (CaptureRoutingResponse c) emitted ->
          RouteEndpoint info <> None)
    /\ (forall ep c t d, In (CaptureRoutingResponseLatency ep c t d) emitted ->
          RouteEndpoint info = Some ep
          /\ Time.Equal (AppRequestFinishedAt info) Time.zero = false
          /\ In (CaptureRoutingResponse c) emitted)
    /\ (forall ep, RouteEndpoint info = Some ep ->
          rwIsProxyWriter (rw s1) = true ->
          In (CaptureRoutingResponse (Status (rw s1))) emitted
          /\ (Time.Equal (AppRequestFinishedAt info) Time.zero = false ->
              In (CaptureRoutingResponseLatency ep (Status (rw s1))
                    (ReceivedAt info)
                    (Time.Sub (AppRequestFinishedAt info) (ReceivedAt info)))
                 emitted)).
Proof.
  intros Hc Hn Hi. eexists. split; [apply (reporter_run next s s1 p info Hc Hn Hi) |].
  destruct (RouteEndpoint info) as [ep |];
    destruct (rwIsProxyWriter (rw s1));
    destruct (Time.Equal (AppRequestFinishedAt info) Time.zero); cbn.
  all: repeat split; intros; cbn in *;
    repeat match goal with
           | H : _ \/ _ |- _ => destruct H
           | H : False |- _ => destruct H
           | H : CaptureRoutingResponseLatency _ _ _ _ = _ |- _ =>
               injection H as <- <- <- <-
           | H : CaptureRoutingResponse _ = _ |- _ => injection H as <-
           end;
    try congruence; try tauto.
  right; left; congruence.
Qed.

Lemma reporter_captures_only_with_endpoint_witness :
  ContextRequestInfo Sample.state = inl 2%positive
  /\ Sample.served (reporterEntry Sample.state) = (Returned tt, Sample.afterServed)
  /\ infos Sample.afterServed !! 2%positive = Some Sample.servedInfo
  /\ exists emitted,
       metrics (Handlers.reporter_ServeHTTP Sample.served Sample.state).2
       = (metrics Sample.afterServed ++ emitted)%list
       /\ (RouteEndpoint Sample.servedInfo = None -> emitted = [])
       /\ (forall c, In (CaptureRoutingResponse c) emitted ->
             RouteEndpoint Sample.servedInfo <> None)
       /\ (forall ep c t d, In (CaptureRoutingResponseLatency ep c t d) emitted ->
             RouteEndpoint Sample.servedInfo = Some ep
             /\ Time.Equal (AppRequestFinishedAt Sample.servedInfo) Time.zero = false
             /\ In (CaptureRoutingResponse c) emitted)
       /\ (forall ep, RouteEndpoint Sample.servedInfo = Some ep ->
             rwIsProxyWriter (rw Sample.afterServed) = true ->
             In (CaptureRoutingResponse (Status (rw Sample.afterServed))) emitted
             /\ (Time.Equal (AppRequestFinishedAt Sample.servedInfo) Time.zero = false ->
                 In (CaptureRoutingResponseLatency ep (Status (rw Sample.afterServed))
                       (ReceivedAt Sample.servedInfo)
                       (Time.Sub (AppRequestFinishedAt Sample.servedInfo)
                          (ReceivedAt Sample.servedInfo)))
                    emitted)).
Proof.
  split; [vm_compute; reflexivity |].
  split; [vm_compute; reflexivity |].
  split; [vm_compute; reflexivity |].
  apply (reporter_captures_only_with_endpoint Sample.served Sample.state
           Sample.afterServed 2%positive Sample.servedInfo);
    vm_compute; reflexivity.
Defined.

(* ===================================================================== *)
(** ** The last stage of the pipeline: start and finish times *)
(* ===================================================================== *)

Section ServeHTTP.
Context `{clock : Time.Clock}.

(** A later reading of the clocks is not before an earlier one. *)
Lemma reading_not_before (n m : nat) :
  (n <= m)%nat -> Time.Before (reading m) (reading n) = false.
Proof.
  intros Hnm. unfold Time.Before, reading. cbn.
  apply Z.ltb_ge. apply Time.monoAt_nondecreasing. exact Hnm.
Qed.

(** On a proxy writer that can switch to full duplex, with RequestInfo
    attached and a pool in it, the stage returns whenever [next] does, having
    stored a fresh reading of the clocks as the finish time. *)
Lemma serve_returns (cfg : Config.Config) (next : Go unit) (s s1 : State)
    (p : loc) (info info1 : RequestInfo) :
  rwIsProxyWriter (rw s) = true ->
  rwFullDuplexErr (rw s) = None ->
  ctxRequestInfo (req s) = Some p ->
  infos s !! p = Some info ->
  RoutePool info <> None ->
  next (serveEntry cfg p info s) = (Returned tt, s1) ->
  infos s1 !! p = Some info1 ->
  Proxy.ServeHTTP cfg next s
  = (Returned tt,
     setInfos <[p := withFinishedAt (reading (clockReads s1)) info1]>
       (setClockReads (S (clockReads s1)) s1)).
Proof.
  intros Hw Hd Hc Hi Hp Hn Hi1. unfold Proxy.ServeHTTP, serveEntry in *.
  go_run. rewrite Hw. go_run.
  unfold ContextRequestInfo.
  destruct (Config.EnableHTTP1ConcurrentReadWrite cfg && (ProtoMajor (req s) =? 1));
    go_run; rewrite ?Hd; go_run; rewrite Hc.
  all: destruct (decide (is_Some (infos s !! p))) as [_ | Hno];
    [| exfalso; apply Hno; rewrite Hi; eauto].
  all: go_run; rewrite Hi; go_run.
  all: destruct (RoutePool info); [| contradiction]; go_run.
  all: rewrite Hi; go_run; rewrite Hn; go_run; rewrite Hi1; reflexivity.
Qed.

(** C4: when the stage returns for a request whose RequestInfo sits at
    [p], and [next] neither turns back the count of clock readings nor
    touches the start time of that RequestInfo, then the RequestInfo was
    attached with a pool, its start time is the reading of the clocks made on
    entry, its finish time is a later reading, and the finish time is not
    before the start time. *)
Theorem app_request_times_ordered (cfg : Config.Config) (next : Go unit)
    (s s' : State) (p : loc) :
  ctxRequestInfo (req s) = Some p ->
  (forall s0 s1, next s0 = (Returned tt, s1) ->
     (clockReads s0 <= clockReads s1)%nat
     /\ AppRequestStartedAt <$> infos s1 !! p
        = AppRequestStartedAt <$> infos s0 !! p) ->
  Proxy.ServeHTTP cfg next s = (Returned tt, s') ->
  exists info info' m,
    infos s !! p = Some info /\ RoutePool info <> None
    /\ infos s' !! p = Some info'
    /\ AppRequestStartedAt info' = reading (clockReads s)
    /\ (clockReads s < m)%nat
    /\ AppRequestFinishedAt info' = reading m
    /\ Time.Before (AppRequestFinishedAt info') (AppRequestStartedAt info') = false.
Proof.
  intros Hc Hnext Hret. unfold Proxy.ServeHTTP in Hret. revert Hret.
  go_run. destruct (rwIsProxyWriter (rw s)); go_run; [| discriminate].
  unfold ContextRequestInfo.
  set (fd := Config.EnableHTTP1ConcurrentReadWrite cfg && (ProtoMajor (req s) =? 1)).
  destruct fd; go_run.
  1: destruct (rwFullDuplexErr (rw s)); go_run; [discriminate |].
  all: rewrite Hc.
  all: destruct (decide (is_Some (infos s !! p))) as [[info Hi] | Hno];
    go_run; [| discriminate].
  all: rewrite Hi; go_run.
  all: destruct (RoutePool info) as [pool |] eqn:Hp; go_run; [| discriminate].
  all: rewrite Hi; go_run.
  all: match goal with
       | nx : Go unit |- context [?f ?e] =>
           constr_eq f nx; destruct (nx e) as [[[] | v] s1] eqn:Hn
       end; go_run; [| discriminate].
  all: destruct (Hnext _ _ Hn) as [Hle Hst]; cbn in Hle, Hst.
  all: rewrite lookup_insert_eq in Hst; cbn in Hst.
  all: destruct (infos s1 !! p) as [info1 |] eqn:Hi1; go_run; [| discriminate].
  all: intros [= <-]; cbn.
  all: exists info, (withFinishedAt (reading (clockReads s1)) info1), (clockReads s1).
  all: rewrite lookup_insert_eq; cbn in *.
  all: injection Hst as Hst.
  all: repeat split; try congruence; try lia.
  all: rewrite Hst; apply reading_not_before; lia.
Qed.

End ServeHTTP.

Lemma app_request_times_ordered_witness :
  ctxRequestInfo (req Sample.state) = Some 2%positive
  /\ Proxy.ServeHTTP (clock := Sample.clock) Sample.cfg (mret tt) Sample.state
     = (Returned tt,
        setRw withFullDuplex
          (setClockReads 2
             (setInfos <[2%positive :=
                 withFinishedAt (reading (clock := Sample.clock) 1)
                   (withStartedAt (reading (clock := Sample.clock) 0) Sample.info)]>
                Sample.state)))
  /\ exists info info' m,
       infos Sample.state !! 2%positive = Some info /\ RoutePool info <> None
       /\ infos (Proxy.ServeHTTP (clock := Sample.clock) Sample.cfg (mret tt)
                   Sample.state).2 !! 2%positive = Some info'
       /\ AppRequestStartedAt info' = reading (clock := Sample.clock) 0
       /\ (0 < m)%nat
       /\ AppRequestFinishedAt info' = reading (clock := Sample.clock) m
       /\ Time.Before (AppRequestFinishedAt info') (AppRequestStartedAt info') = false.
Proof.
  assert (H2 : Proxy.ServeHTTP (clock := Sample.clock) Sample.cfg (mret tt) Sample.state
     = (Returned tt,
        setRw withFullDuplex
          (setClockReads 2
             (setInfos <[2%positive :=
                 withFinishedAt (reading (clock := Sample.clock) 1)
                   (withStartedAt (reading (clock := Sample.clock) 0) Sample.info)]>
                Sample.state)))) by (vm_compute; reflexivity).
  split; [reflexivity |]. split; [exact H2 |].
  rewrite H2.
  apply (app_request_times_ordered (clock := Sample.clock) Sample.cfg (mret tt)
           Sample.state _ 2%positive); [reflexivity | | exact H2].
  intros s0 s1 [= <-]. split; [lia | reflexivity].
Defined.

(* ===================================================================== *)
(** ** Strings: splitting, joining and trimming *)
(* ===================================================================== *)

Lemma string_app_cons (x : ascii) (a b : string) :
  String x a ++ b = String x (a ++ b).
Proof. reflexivity. Qed.

Lemma string_app_nil_l (a : string) : "" ++ a = a.
Proof. reflexivity. Qed.

Lemma string_app_assoc (a b c : string) : (a ++ b) ++ c = a ++ (b ++ c).
Proof.
  induction a as [| x a IH]; [reflexivity |].
  by rewrite !string_app_cons, IH.
Qed.

Lemma string_app_nil_r (a : string) : a ++ "" = a.
Proof.
  induction a as [| x a IH]; [reflexivity |].
  by rewrite string_app_cons, IH.
Qed.

Lemma string_length_app (a b : string) :
  String.length (a ++ b) = (String.length a + String.length b)%nat.
Proof.
  induction a as [| x a IH]; [reflexivity |].
  rewrite string_app_cons. cbn. by rewrite IH.
Qed.

Lemma substring_app_l (a b : string) :
  String.substring 0 (String.length a) (a ++ b) = a.
Proof.
  induction a as [| x a IH].
  - rewrite string_app_nil_l. destruct b; reflexivity.
  - rewrite string_app_cons. cbn. by rewrite IH.
Qed.

Lemma HasSuffix_app (a suffix : string) : Strings.HasSuffix (a ++ suffix) suffix = true.
Proof.
  induction a as [| x a IH].
  - rewrite string_app_nil_l.
    destruct suffix as [| y t]; cbn; [reflexivity |].
    by rewrite Ascii.eqb_refl, String.eqb_refl.
  - rewrite string_app_cons. cbn [Strings.HasSuffix].
    destruct (String.eqb (String x (a ++ suffix)) suffix); [reflexivity | exact IH].
Qed.

(** Trimming the suffix that was just appended gives the string back. *)
Lemma TrimSuffix_app (a suffix : string) : Strings.TrimSuffix (a ++ suffix) suffix = a.
Proof.
  unfold Strings.TrimSuffix. rewrite HasSuffix_app, string_length_app.
  replace (String.length a + String.length suffix - String.length suffix)%nat
    with (String.length a) by lia.
  apply substring_app_l.
Qed.

Lemma Split_nonempty (s : string) (sep : ascii) : Strings.Split s sep <> [].
Proof.
  destruct s as [| c s]; cbn; [discriminate |].
  destruct (Ascii.eqb c sep); [discriminate |].
  destruct (Strings.Split s sep); discriminate.
Qed.

(** The loop of [escapePathAndPreserveSlashes] appends every escaped part
    and a slash. *)
Lemma escape_loop (parts : list string) (acc : string) :
  fold_left (fun escapedPath part => escapedPath ++ Url.PathEscape part ++ "/")
    parts acc
  = acc ++ fold_right (fun part r => Url.PathEscape part ++ "/" ++ r) "" parts.
Proof.
  revert acc. induction parts as [| part parts IH]; intros acc; cbn.
  - by rewrite string_app_nil_r.
  - rewrite IH. by rewrite !string_app_assoc.
Qed.

Lemma escape_parts_of_split (path : string) :
  fold_right (fun part r => Url.PathEscape part ++ "/" ++ r) ""
    (Strings.Split path "/")
  = escapeKeepingSlashes path ++ "/".
Proof.
  induction path as [| c path IH]; [reflexivity |].
  cbn [Strings.Split escapeKeepingSlashes].
  destruct (Ascii.eqb c "/") eqn:Hc.
  - cbn [fold_right]. rewrite IH. reflexivity.
  - destruct (Strings.Split path "/") as [| piece pieces] eqn:Hs.
    + exfalso. exact (Split_nonempty path "/" Hs).
    + cbn [fold_right] in *. rewrite string_app_assoc, <- IH.
      unfold Url.PathEscape. cbn [Url.escape].
      by rewrite !string_app_assoc.
Qed.

(** [escapePathAndPreserveSlashes] keeps every slash where it is and escapes
    the bytes between the slashes. *)
Lemma escapePathAndPreserveSlashes_bytewise (path : string) :
  Proxy.escapePathAndPreserveSlashes path = escapeKeepingSlashes path.
Proof.
  unfold Proxy.escapePathAndPreserveSlashes. cbv zeta.
  rewrite escape_loop, escape_parts_of_split.
  change ("" ++ ?x) with x. apply TrimSuffix_app.
Qed.

(** Two leading slashes of a path are still there after escaping. *)
Lemma escapeKeepingSlashes_double_slash (rest : string) :
  escapeKeepingSlashes ("//" ++ rest) = "//" ++ escapeKeepingSlashes rest.
Proof. reflexivity. Qed.

(** A path of letters, digits, [-_.~] and slashes is left as it is. *)
Lemma escapeKeepingSlashes_plain (path : string) :
  (forall c, Strings.ContainsByte path c = true ->
             c = "/"%char \/ Url.shouldEscape c Url.encodePathSegment = false) ->
  escapeKeepingSlashes path = path.
Proof.
  induction path as [| c path IH]; intros Hp; [reflexivity |].
  cbn [escapeKeepingSlashes]. rewrite IH.
  - destruct (Ascii.eqb c "/") eqn:Hc.
    + apply Ascii.eqb_eq in Hc as ->. reflexivity.
    + destruct (Hp c) as [-> | Hs].
      * cbn. by rewrite Ascii.eqb_refl.
      * by rewrite Ascii.eqb_refl in Hc.
      * unfold Url.escapeByte. rewrite Hs. reflexivity.
  - intros d Hd. apply Hp. cbn. rewrite Hd. by rewrite orb_true_r.
Qed.

(* ===================================================================== *)
(** ** The director *)
(* ===================================================================== *)

Section Director.
Context `{clock : Time.Clock}.

(** [setRequestXRequestStart] on a request with a header map: it returns,
    reads the clock only when the header is absent, and changes nothing but
    the header map of the request. *)
Lemma setRequestXRequestStart_run (s : State) (h : Http.Header) :
  hdrs s !! Header (req s) = Some h ->
  Proxy.setRequestXRequestStart s
  = (Returned tt,
     match h !! "X-Request-Start" with
     | Some _ => s
     | None =>
         setHdrs <[Header (req s) := stampedHeader h (Time.wallAt (clockReads s))]>
           (setClockReads (S (clockReads s)) s)
     end).
Proof.
  intros Hh. unfold Proxy.setRequestXRequestStart, stampedHeader. go_run.
  rewrite Hh. cbn.
  change (Http.CanonicalHeaderKey "X-Request-Start") with "X-Request-Start".
  destruct (h !! "X-Request-Start") as [vs |] eqn:Hx; [reflexivity |].
  go_run. rewrite Hh. reflexivity.
Qed.

(** C7: on a request with a header map the step returns; when
    [X-Request-Start] is absent it becomes the reading of the wall clock in
    milliseconds since the Unix epoch, in decimal; when it is present
    nothing at all changes, so its value is kept; every other header, every
    other header map and the request itself are as before. *)
Theorem x_request_start_set_iff_absent (s : State) (h : Http.Header) :
  hdrs s !! Header (req s) = Some h ->
  exists s',
    Proxy.setRequestXRequestStart s = (Returned tt, s')
    /\ (h !! "X-Request-Start" = None ->
        requestHeader s' !! "X-Request-Start"
        = Some [Strconv.FormatInt (Z.quot (Time.wallAt (clockReads s)) 1000000)])
    /\ (forall vs, h !! "X-Request-Start" = Some vs -> s' = s)
    /\ (forall k, k <> "X-Request-Start" -> requestHeader s' !! k = h !! k)
    /\ (forall l, l <> Header (req s) -> hdrs s' !! l = hdrs s !! l)
    /\ req s' = req s.
Proof.
  intros Hh. eexists. split; [apply (setRequestXRequestStart_run s h Hh) |].
  unfold stampedHeader, requestHeader.
  destruct (h !! "X-Request-Start") as [vs |] eqn:Hx; cbn.
  - rewrite Hh. cbn. repeat split; try congruence; done.
  - rewrite lookup_insert_eq. cbn. repeat split.
    + intros _. by rewrite lookup_insert_eq.
    + intros vs [=].
    + intros k Hk. by rewrite lookup_insert_ne.
    + intros l Hl. by rewrite lookup_insert_ne.
Qed.

(** The director on a request with RequestInfo attached and a header map:
    it returns, and leaves the URL, the header map and the RequestInfo as
    stated. *)
Lemma setupProxyRequest_run (s : State) (p : loc) (info : RequestInfo)
    (h : Http.Header) :
  ctxRequestInfo (req s) = Some p ->
  infos s !! p = Some info ->
  hdrs s !! Header (req s) = Some h ->
  exists s',
    Proxy.setupProxyRequest s = (Returned tt, s')
    /\ URL (req s') = directedURL (req s)
    /\ requestHeader s'
       = Http.Del (stampedHeader h (Time.wallAt (clockReads s))) Proxy.CfAppInstance
    /\ infos s' !! p = Some (withBackendReqHeaders (Header (req s)) info)
    /\ Header (req s') = Header (req s)
    /\ Host (req s') = Host (req s)
    /\ RequestURI (req s') = RequestURI (req s).
Proof.
  intros Hc Hi Hh. unfold Proxy.setupProxyRequest, ContextRequestInfo.
  go_run. rewrite Hc.
  destruct (decide (is_Some (infos s !! p))) as [_ | Hno];
    [| exfalso; apply Hno; rewrite Hi; eauto].
  go_run. rewrite Hi. go_run.
  unfold directedURL, reencodedQuery, Url.Query, Url.ParseQuery.
  rewrite <- escapePathAndPreserveSlashes_bytewise.
  destruct (Strings.HasPrefix (RequestURI (req s)) "//"); cbn.
  1: destruct (decide (0 < size _)%nat); cbn.
  all: erewrite setRequestXRequestStart_run by (cbn; exact Hh).
  all: unfold stampedHeader, requestHeader; cbn.
  all: destruct (h !! "X-Request-Start") as [vs |] eqn:Hx; cbn.
  all: rewrite ?lookup_insert_eq, ?Hh; cbn.
  all: eexists; split; [reflexivity |]; cbn.
  all: rewrite ?lookup_insert_eq; cbn.
  all: repeat split.
  all: rewrite ?string_app_assoc, ?string_app_nil_r; try reflexivity.
  all: rewrite insert_insert_eq, lookup_insert_eq; reflexivity.
Qed.

(** Without RequestInfo the director panics at once: the request is left as
    it came and goes nowhere. *)
Lemma setupProxyRequest_without_request_info (s : State) (err : string) :
  ContextRequestInfo s = inr err ->
  exists s',
    Proxy.setupProxyRequest s = (Panicked (OtherValue "request-info-err"), s')
    /\ req s' = req s /\ hdrs s' = hdrs s.
Proof.
  intros Hc. unfold Proxy.setupProxyRequest. go_run. rewrite Hc. cbn.
  eexists. repeat split.
Qed.

(** C2, as the code has it: the director returns with scheme [http], the
    URL host set to the request host, no forced query and no raw query.  For
    a request target that does not begin with two slashes [Opaque] is the
    request target, byte for byte.  For one that does, [Opaque] is ["//"],
    the host, the URL path with every slash kept and the bytes between the
    slashes escaped anew, and the query parsed and encoded anew. *)
Theorem director_rewrites_url (s : State) (p : loc) (info : RequestInfo)
    (h : Http.Header) :
  ctxRequestInfo (req s) = Some p ->
  infos s !! p = Some info ->
  hdrs s !! Header (req s) = Some h ->
  exists s',
    Proxy.setupProxyRequest s = (Returned tt, s')
    /\ Url.Scheme (URL (req s')) = "http"
    /\ Url.Host (URL (req s')) = Host (req s)
    /\ Url.ForceQuery (URL (req s')) = false
    /\ Url.RawQuery (URL (req s')) = ""
    /\ RequestURI (req s') = RequestURI (req s)
    /\ (Strings.HasPrefix (RequestURI (req s)) "//" = false ->
        Url.Opaque (URL (req s')) = RequestURI (req s))
    /\ (Strings.HasPrefix (RequestURI (req s)) "//" = true ->
        Url.Opaque (URL (req s'))
        = "//" ++ Host (req s) ++ escapeKeepingSlashes (Url.Path (URL (req s)))
          ++ reencodedQuery (URL (req s))).
Proof.
  intros Hc Hi Hh.
  destruct (setupProxyRequest_run s p info h Hc Hi Hh)
    as (s' & Hrun & Hu & _ & _ & _ & _ & Hr).
  exists s'. split; [exact Hrun |]. rewrite Hu, Hr. unfold directedURL. cbn.
  repeat split; intros ->; reflexivity.
Qed.

(** C8: the director returns with no [X-CF-App-Instance] header left on the
    request, under the canonical key that header maps use, and with every
    header other than this one and [X-Request-Start] as it was. *)
Theorem director_strips_app_instance (s : State) (p : loc) (info : RequestInfo)
    (h : Http.Header) :
  ctxRequestInfo (req s) = Some p ->
  infos s !! p = Some info ->
  hdrs s !! Header (req s) = Some h ->
  exists s',
    Proxy.setupProxyRequest s = (Returned tt, s')
    /\ requestHeader s' !! Http.CanonicalHeaderKey Proxy.CfAppInstance = None
    /\ Http.Get (requestHeader s') Proxy.CfAppInstance = ""
    /\ (forall k, k <> Http.CanonicalHeaderKey Proxy.CfAppInstance ->
          k <> "X-Request-Start" -> requestHeader s' !! k = h !! k).
Proof.
  intros Hc Hi Hh.
  destruct (setupProxyRequest_run s p info h Hc Hi Hh)
    as (s' & Hrun & _ & Hd & _).
  exists s'. split; [exact Hrun |]. rewrite Hd. unfold Http.Get, Http.Del.
  rewrite lookup_delete_eq. repeat split.
  intros k Hk Hx. rewrite lookup_delete_ne by congruence.
  unfold stampedHeader. destruct (h !! "X-Request-Start"); [reflexivity |].
  by rewrite lookup_insert_ne.
Qed.

End Director.

Lemma x_request_start_set_iff_absent_witness :
  hdrs Sample.state !! Header (req Sample.state) = Some Sample.headers
  /\ exists s',
       Proxy.setRequestXRequestStart (clock := Sample.clock) Sample.state
       = (Returned tt, s')
       /\ (Sample.headers !! "X-Request-Start" = None ->
           requestHeader s' !! "X-Request-Start"
           = Some [Strconv.FormatInt
                     (Z.quot (Time.wallAt (Clock := Sample.clock)
                                (clockReads Sample.state)) 1000000)])
       /\ (forall vs, Sample.headers !! "X-Request-Start" = Some vs ->
             s' = Sample.state)
       /\ (forall k, k <> "X-Request-Start" ->
             requestHeader s' !! k = Sample.headers !! k)
       /\ (forall l, l <> Header (req Sample.state) ->
             hdrs s' !! l = hdrs Sample.state !! l)
       /\ req s' = req Sample.state.
Proof.
  split; [reflexivity |].
  apply (x_request_start_set_iff_absent (clock := Sample.clock) Sample.state
           Sample.headers).
  reflexivity.
Defined.

Lemma director_rewrites_url_witness :
  ctxRequestInfo (req Sample.slashState) = Some 2%positive
  /\ infos Sample.slashState !! 2%positive = Some Sample.info
  /\ hdrs Sample.slashState !! Header (req Sample.slashState) = Some Sample.headers
  /\ exists s',
       Proxy.setupProxyRequest (clock := Sample.clock) Sample.slashState
       = (Returned tt, s')
       /\ Url.Scheme (URL (req s')) = "http"
       /\ Url.Host (URL (req s')) = Host (req Sample.slashState)
       /\ Url.ForceQuery (URL (req s')) = false
       /\ Url.RawQuery (URL (req s')) = ""
       /\ RequestURI (req s') = RequestURI (req Sample.slashState)
       /\ (Strings.HasPrefix (RequestURI (req Sample.slashState)) "//" = false ->
           Url.Opaque (URL (req s')) = RequestURI (req Sample.slashState))
       /\ (Strings.HasPrefix (RequestURI (req Sample.slashState)) "//" = true ->
           Url.Opaque (URL (req s'))
           = "//" ++ Host (req Sample.slashState)
             ++ escapeKeepingSlashes (Url.Path (URL (req Sample.slashState)))
             ++ reencodedQuery (URL (req Sample.slashState))).
Proof.
  split; [reflexivity |]. split; [reflexivity |]. split; [reflexivity |].
  apply (director_rewrites_url (clock := Sample.clock) Sample.slashState
           2%positive Sample.info Sample.headers); reflexivity.
Defined.

(** C2 as the claim words it fails: for the request target
    [//foo/bar?b=2&a=1] the director leaves an [Opaque] that is not the
    request target; the host stands in front and the query comes out in
    another order. *)
Lemma director_double_slash_not_verbatim :
  (Proxy.setupProxyRequest (clock := Sample.clock) Sample.slashState).1
  = Returned tt
  /\ RequestURI (req Sample.slashState) = "//foo/bar?b=2&a=1"
  /\ Url.Opaque (URL (req (Proxy.setupProxyRequest (clock := Sample.clock)
                             Sample.slashState).2))
     = "//app.example.com//foo/bar?a=1&b=2"
  /\ Url.Opaque (URL (req (Proxy.setupProxyRequest (clock := Sample.clock)
                             Sample.slashState).2))
     <> RequestURI (req Sample.slashState).
Proof.
  repeat split; try (vm_compute; reflexivity).
  vm_compute. discriminate.
Qed.

Lemma director_strips_app_instance_witness :
  ctxRequestInfo (req Sample.state) = Some 2%positive
  /\ infos Sample.state !! 2%positive = Some Sample.info
  /\ hdrs Sample.state !! Header (req Sample.state) = Some Sample.headers
  /\ Sample.headers !! "X-Cf-App-Instance" = Some ["app-guid:0"]
  /\ exists s',
       Proxy.setupProxyRequest (clock := Sample.clock) Sample.state
       = (Returned tt, s')
       /\ requestHeader s' !! Http.CanonicalHeaderKey Proxy.CfAppInstance = None
       /\ Http.Get (requestHeader s') Proxy.CfAppInstance = ""
       /\ (forall k, k <> Http.CanonicalHeaderKey Proxy.CfAppInstance ->
             k <> "X-Request-Start" ->
             requestHeader s' !! k = Sample.headers !! k).
Proof.
  split; [reflexivity |]. split; [reflexivity |]. split; [reflexivity |].
  split; [reflexivity |].
  apply (director_strips_app_instance (clock := Sample.clock) Sample.state
           2%positive Sample.info Sample.headers); reflexivity.
Defined.

(* ===================================================================== *)
(** ** More on [escapePathAndPreserveSlashes] *)
(* ===================================================================== *)

Lemma escapeByte_has_no_slash (c : ascii) :
  Ascii.eqb c "/" = false ->
  Strings.ContainsByte (Url.escapeByte Url.encodePathSegment c) "/" = false.
Proof.
  destruct c as [[] [] [] [] [] [] [] []]; vm_compute; intros; congruence.
Qed.

Lemma Split_app_no_sep (a b : string) (sep : ascii) :
  Strings.ContainsByte a sep = false ->
  Strings.Split (a ++ b) sep
  = match Strings.Split b sep with
    | piece :: pieces => (a ++ piece) :: pieces
    | [] => [a]
    end.
Proof.
  induction a as [| x a IH]; intros Ha.
  - rewrite string_app_nil_l.
    destruct (Strings.Split b sep) eqn:Hs; [| reflexivity].
    exfalso. exact (Split_nonempty b sep Hs).
  - cbn in Ha. apply orb_false_iff in Ha as [Hx Ha].
    rewrite string_app_cons. cbn [Strings.Split]. rewrite Hx, (IH Ha).
    destruct (Strings.Split b sep) eqn:Hs; [| reflexivity].
    exfalso. exact (Split_nonempty b sep Hs).
Qed.

Lemma Split_escapeKeepingSlashes (path : string) :
  Strings.Split (escapeKeepingSlashes path) "/"
  = map Url.PathEscape (Strings.Split path "/").
Proof.
  induction path as [| c path IH]; [reflexivity |].
  cbn [escapeKeepingSlashes Strings.Split].
  destruct (Ascii.eqb c "/") eqn:Hc.
  - change ("/" ++ ?x) with (String "/" x). cbn [Strings.Split].
    rewrite Ascii.eqb_refl, IH. reflexivity.
  - rewrite (Split_app_no_sep _ _ _ (escapeByte_has_no_slash c Hc)), IH.
    destruct (Strings.Split path "/") as [| piece pieces] eqn:Hs.
    + exfalso. exact (Split_nonempty path "/" Hs).
    + reflexivity.
Qed.

(** X1: the escaped path has the same pieces between its slashes as the
    path, each one escaped as [url.PathEscape] escapes it: no slash is lost,
    added or moved. *)
Theorem escaped_path_splits_alike (path : string) :
  Strings.Split (Proxy.escapePathAndPreserveSlashes path) "/"
  = map Url.PathEscape (Strings.Split path "/").
Proof.
  rewrite escapePathAndPreserveSlashes_bytewise.
  apply Split_escapeKeepingSlashes.
Qed.

Lemma allBytes_app (ok : ascii -> bool) (a b : string) :
  allBytes ok (a ++ b) = allBytes ok a && allBytes ok b.
Proof.
  induction a as [| x a IH]; [reflexivity |].
  rewrite string_app_cons. cbn. by rewrite IH, andb_assoc.
Qed.

Lemma escapeByte_length (c : ascii) :
  String.length (Url.escapeByte Url.encodePathSegment c)
  = if Url.shouldEscape c Url.encodePathSegment then 3%nat else 1%nat.
Proof. unfold Url.escapeByte. by destruct (Url.shouldEscape _ _). Qed.

Lemma escapeKeepingSlashes_length (path : string) :
  (String.length path <= String.length (escapeKeepingSlashes path))%nat.
Proof.
  induction path as [| c path IH]; [reflexivity |].
  cbn [escapeKeepingSlashes]. rewrite string_length_app. cbn [String.length].
  destruct (Ascii.eqb c "/"); [cbn; lia |].
  rewrite escapeByte_length. destruct (Url.shouldEscape _ _); lia.
Qed.

(** X2: the function gives a path back unchanged exactly when every byte of
    it is a slash or a byte that needs no escaping in a path segment. *)
Theorem escaped_path_unchanged_iff_plain (path : string) :
  Proxy.escapePathAndPreserveSlashes path = path
  <-> allBytes plainPathByte path = true.
Proof.
  rewrite escapePathAndPreserveSlashes_bytewise.
  induction path as [| c path IH]; [by split |].
  cbn [escapeKeepingSlashes allBytes]. unfold plainPathByte at 1.
  destruct (Ascii.eqb c "/") eqn:Hc.
  - apply Ascii.eqb_eq in Hc as ->. cbn [orb andb].
    change ("/" ++ ?x) with (String "/" x). rewrite <- IH.
    split; [intros [= E]; exact E | intros ->; reflexivity].
  - cbn [orb]. unfold Url.escapeByte.
    destruct (Url.shouldEscape c Url.encodePathSegment) eqn:Hs; cbn [negb andb].
    + split; [| discriminate]. intros E. exfalso.
      apply (f_equal String.length) in E.
      rewrite string_length_app in E. cbn [String.length] in E.
      pose proof (escapeKeepingSlashes_length path). lia.
    + rewrite string_app_cons, string_app_nil_l, <- IH.
      split; [intros [= E]; exact E | intros ->; reflexivity].
Qed.

Lemma escapeByte_is_escaped (c : ascii) :
  allBytes escapedPathByte (Url.escapeByte Url.encodePathSegment c) = true.
Proof. destruct c as [[] [] [] [] [] [] [] []]; vm_compute; reflexivity. Qed.

(** X3: whatever the path holds, its escaped form holds nothing but
    slashes, percent signs and bytes that a path segment may hold
    unescaped; no space, question mark, semicolon or control byte gets
    through. *)
Theorem escaped_path_is_clean (path : string) :
  allBytes escapedPathByte (Proxy.escapePathAndPreserveSlashes path) = true.
Proof.
  rewrite escapePathAndPreserveSlashes_bytewise.
  induction path as [| c path IH]; [reflexivity |].
  cbn [escapeKeepingSlashes]. rewrite allBytes_app, IH, andb_true_r.
  destruct (Ascii.eqb c "/"); [reflexivity | apply escapeByte_is_escaped].
Qed.

(* ===================================================================== *)
(** ** More on the panic guard *)
(* ===================================================================== *)

(** X4: a guard around a guard behaves as one guard, for every handler and
    every state. *)
Theorem panic_guard_idempotent (next : Go unit) (s : State) :
  Handlers.panicCheck_ServeHTTP (Handlers.panicCheck_ServeHTTP next) s
  = Handlers.panicCheck_ServeHTTP next s.
Proof.
  unfold Handlers.panicCheck_ServeHTTP, deferRecover.
  destruct (next s) as [[[] | v] s1]; [reflexivity |].
  destruct (decide (v = ErrAbortHandler)) as [-> | Hv]; go_run; reflexivity.
Qed.

Lemma guard_panics_only_with_abort (next : Go unit) (s s' : State)
    (v : PanicValue) :
  Handlers.panicCheck_ServeHTTP next s = (Panicked v, s') ->
  v = ErrAbortHandler /\ next s = (Panicked ErrAbortHandler, s').
Proof.
  unfold Handlers.panicCheck_ServeHTTP, deferRecover.
  destruct (next s) as [[[] | w] s1]; [discriminate |].
  destruct (decide (w = ErrAbortHandler)) as [-> | Hw]; go_run.
  - intros [= <- <-]. split; reflexivity.
  - discriminate.
Qed.

(** X5: the only panic that gets past the guard is [http.ErrAbortHandler],
    and only when the handler inside panicked with it. *)
Theorem panic_guard_lets_only_abort_out (next : Go unit) (s s' : State)
    (v : PanicValue) :
  Handlers.panicCheck_ServeHTTP next s = (Panicked v, s') ->
  v = ErrAbortHandler /\ next s = (Panicked ErrAbortHandler, s').
Proof. apply guard_panics_only_with_abort. Qed.

Lemma panic_guard_lets_only_abort_out_witness :
  Handlers.panicCheck_ServeHTTP Inputs.abort Sample.state
  = (Panicked ErrAbortHandler, Sample.state)
  /\ ErrAbortHandler = ErrAbortHandler
  /\ Inputs.abort Sample.state = (Panicked ErrAbortHandler, Sample.state).
Proof.
  split; [reflexivity |].
  apply (panic_guard_lets_only_abort_out Inputs.abort Sample.state Sample.state
           ErrAbortHandler).
  reflexivity.
Defined.

(** X6: when the guard recovers, it adds one entry to the log, at error
    level, with the message [panic-check] and the text of the panic value;
    the header maps, the RequestInfo objects, the metrics, the response
    headers and the clock are as the panic left them, and of the request
    only [Close] changes. *)
Theorem panic_guard_recovery_frame (next : Go unit) (s s1 : State) (v : PanicValue) :
  next s = (Panicked v, s1) ->
  v <> ErrAbortHandler ->
  exists s2,
    Handlers.panicCheck_ServeHTTP next s = (Returned tt, s2)
    /\ logs s2 = (logs s1 ++ [{| level := ErrorLevel; message := "panic-check";
                                 detail := Handlers.errorOf v |}])%list
    /\ req s2 = withClose true (req s1)
    /\ hdrs s2 = hdrs s1
    /\ infos s2 = infos s1
    /\ metrics s2 = metrics s1
    /\ rwHeader (rw s2) = rwHeader (rw s1)
    /\ clockReads s2 = clockReads s1.
Proof.
  intros Hn Hv. unfold Handlers.panicCheck_ServeHTTP, deferRecover. rewrite Hn.
  destruct (decide (v = ErrAbortHandler)); [contradiction |].
  eexists. split; [reflexivity |]. repeat split.
Qed.

Lemma panic_guard_recovery_frame_witness :
  Sample.crash Sample.state = (Panicked (ErrorValue "boom"), Sample.state)
  /\ ErrorValue "boom" <> ErrAbortHandler
  /\ exists s2,
       Handlers.panicCheck_ServeHTTP Sample.crash Sample.state = (Returned tt, s2)
       /\ logs s2 = (logs Sample.state
                     ++ [{| level := ErrorLevel; message := "panic-check";
                            detail := Handlers.errorOf (ErrorValue "boom") |}])%list
       /\ req s2 = withClose true (req Sample.state)
       /\ hdrs s2 = hdrs Sample.state
       /\ infos s2 = infos Sample.state
       /\ metrics s2 = metrics Sample.state
       /\ rwHeader (rw s2) = rwHeader (rw Sample.state)
       /\ clockReads s2 = clockReads Sample.state.
Proof.
  split; [reflexivity |]. split; [discriminate |].
  apply (panic_guard_recovery_frame Sample.crash Sample.state Sample.state
           (ErrorValue "boom")); [reflexivity | discriminate].
Defined.

(* ===================================================================== *)
(** ** More on the director and on [X-Request-Start] *)
(* ===================================================================== *)

Section DirectorMore.
Context `{clock : Time.Clock}.

(** X7: a second application of [setRequestXRequestStart] changes nothing:
    the time of the first one stays in the header and the clock is not read
    again. *)
Theorem x_request_start_idempotent (s : State) (h : Http.Header) :
  hdrs s !! Header (req s) = Some h ->
  exists s1,
    Proxy.setRequestXRequestStart s = (Returned tt, s1)
    /\ Proxy.setRequestXRequestStart s1 = (Returned tt, s1).
Proof.
  intros Hh. rewrite (setRequestXRequestStart_run s h Hh).
  destruct (h !! "X-Request-Start") as [vs |] eqn:Hx.
  - exists s. split; [reflexivity |].
    rewrite (setRequestXRequestStart_run s h Hh), Hx. reflexivity.
  - eexists. split; [reflexivity |].
    erewrite setRequestXRequestStart_run by (cbn; apply lookup_insert_eq).
    unfold stampedHeader. rewrite Hx, lookup_insert_eq. reflexivity.
Qed.

(** The state in which the director returns, field by field. *)
Lemma setupProxyRequest_final (s : State) (p : loc) (info : RequestInfo)
    (h : Http.Header) :
  ctxRequestInfo (req s) = Some p ->
  infos s !! p = Some info ->
  hdrs s !! Header (req s) = Some h ->
  exists s',
    Proxy.setupProxyRequest s = (Returned tt, s')
    /\ req s' = withURL (fun _ => directedURL (req s)) (req s)
    /\ hdrs s'
       = <[Header (req s) :=
             Http.Del (stampedHeader h (Time.wallAt (clockReads s)))
               Proxy.CfAppInstance]> (hdrs s)
    /\ infos s' = <[p := withBackendReqHeaders (Header (req s)) info]> (infos s)
    /\ rw s' = rw s /\ health s' = health s
    /\ metrics s' = metrics s /\ logs s' = logs s
    /\ clockReads s' = (if h !! "X-Request-Start" is Some _ then clockReads s
                        else S (clockReads s)).
Proof.
  intros Hc Hi Hh. unfold Proxy.setupProxyRequest, ContextRequestInfo.
  go_run. rewrite Hc.
  destruct (decide (is_Some (infos s !! p))) as [_ | Hno];
    [| exfalso; apply Hno; rewrite Hi; eauto].
  go_run. rewrite Hi. go_run.
  unfold directedURL, reencodedQuery, Url.Query, Url.ParseQuery.
  rewrite <- escapePathAndPreserveSlashes_bytewise.
  destruct (Strings.HasPrefix (RequestURI (req s)) "//"); cbn.
  1: destruct (decide (0 < size _)%nat); cbn.
  all: erewrite setRequestXRequestStart_run by (cbn; exact Hh).
  all: unfold stampedHeader.
  all: destruct (h !! "X-Request-Start") as [vs |] eqn:Hx.
  all: cbn [fst snd hdrs req Header setHdrs setClockReads setReq setInfos
            withURL withRawQuery withOpaque withForceQuery withHost
            withScheme].
  all: rewrite ?lookup_insert_eq, ?Hh.
  all: eexists; split; [reflexivity |].
  all: cbn [hdrs req infos rw health metrics logs clockReads Header setHdrs
            setClockReads setReq setInfos].
  all: rewrite ?insert_insert_eq.
  all: destruct (req s) as [hd ho ru [sc op uh pa fq rq] tls cl pm ctx].
  all: cbn [withURL withRawQuery withOpaque withForceQuery withHost withScheme
            URL Header Host RequestURI TLS Close ProtoMajor ctxRequestInfo
            Url.Scheme Url.Opaque Url.Host Url.Path Url.ForceQuery
            Url.RawQuery].
  all: rewrite ?string_app_assoc, ?string_app_nil_r.
  all: repeat split.
Qed.


(** X9: after the director, [BackendReqHeaders] of the RequestInfo is the
    header map of the request itself, not a copy: the headers kept for the
    access log are the ones that go out, with [X-Request-Start] in them and
    without [X-CF-App-Instance]. *)
Theorem director_records_outgoing_headers (s : State) (p : loc)
    (info : RequestInfo) (h : Http.Header) :
  ctxRequestInfo (req s) = Some p ->
  infos s !! p = Some info ->
  hdrs s !! Header (req s) = Some h ->
  exists s' info' l sent,
    Proxy.setupProxyRequest s = (Returned tt, s')
    /\ infos s' !! p = Some info'
    /\ BackendReqHeaders info' = Some l
    /\ l = Header (req s')
    /\ hdrs s' !! l = Some sent
    /\ is_Some (sent !! "X-Request-Start")
    /\ sent !! Http.CanonicalHeaderKey Proxy.CfAppInstance = None.
Proof.
  intros Hc Hi Hh.
  destruct (setupProxyRequest_final s p info h Hc Hi Hh)
    as (s' & Hrun & Hr & Hhd & Hin & _).
  exists s', (withBackendReqHeaders (Header (req s)) info), (Header (req s)),
    (Http.Del (stampedHeader h (Time.wallAt (clockReads s))) Proxy.CfAppInstance).
  split; [exact Hrun |]. rewrite Hr, Hhd, Hin, !lookup_insert_eq.
  destruct (req s) as [hd ho ru u tls cl pm ctx]. cbn. repeat split.
  - unfold Http.Del. rewrite lookup_delete_ne by discriminate.
    unfold stampedHeader. destruct (h !! "X-Request-Start") eqn:Hx.
    + rewrite Hx. eauto.
    + rewrite lookup_insert_eq. eauto.
  - unfold Http.Del. apply lookup_delete_eq.
Qed.

(** X10: without RequestInfo the director writes one entry to the log and
    panics with [request-info-err]; nothing else has changed, the URL and the
    headers of the request included. *)
Theorem director_panics_without_request_info (s : State) (err : string) :
  ContextRequestInfo s = inr err ->
  Proxy.setupProxyRequest s
  = (Panicked (OtherValue "request-info-err"),
     addLog {| level := PanicLevel; message := "request-info-err";
               detail := err |} s).
Proof.
  intros Hc. unfold Proxy.setupProxyRequest. go_run. rewrite Hc. reflexivity.
Qed.

(** X11: for a request target that begins with two slashes and a query of
    which no parameter parses (an empty query, or only pairs with a semicolon
    or a broken escape), the director forwards no query at all: [Opaque]
    ends with the escaped path and [RawQuery] is empty. *)
Theorem director_drops_unparsed_query (s : State) (p : loc) (info : RequestInfo)
    (h : Http.Header) :
  ctxRequestInfo (req s) = Some p ->
  infos s !! p = Some info ->
  hdrs s !! Header (req s) = Some h ->
  Strings.HasPrefix (RequestURI (req s)) "//" = true ->
  Url.Query (URL (req s)) = ∅ ->
  exists s',
    Proxy.setupProxyRequest s = (Returned tt, s')
    /\ Url.Opaque (URL (req s'))
       = "//" ++ Host (req s)
         ++ Proxy.escapePathAndPreserveSlashes (Url.Path (URL (req s)))
    /\ Url.RawQuery (URL (req s')) = "".
Proof.
  intros Hc Hi Hh Hp Hq.
  destruct (setupProxyRequest_final s p info h Hc Hi Hh)
    as (s' & Hrun & Hr & _).
  exists s'. split; [exact Hrun |]. rewrite Hr.
  destruct (req s) as [hd ho ru u tls cl pm ctx]. cbn in *.
  rewrite Hp. unfold reencodedQuery. rewrite Hq, map_size_empty.
  destruct (decide (0 < 0)%nat); [lia |].
  rewrite string_app_nil_r, escapePathAndPreserveSlashes_bytewise.
  split; reflexivity.
Qed.

End DirectorMore.

Lemma x_request_start_idempotent_witness :
  hdrs Sample.state !! Header (req Sample.state) = Some Sample.headers
  /\ exists s1,
       Proxy.setRequestXRequestStart (clock := Sample.clock) Sample.state
       = (Returned tt, s1)
       /\ Proxy.setRequestXRequestStart (clock := Sample.clock) s1
          = (Returned tt, s1).
Proof.
  split; [reflexivity |].
  apply (x_request_start_idempotent (clock := Sample.clock) Sample.state
           Sample.headers).
  reflexivity.
Defined.


Lemma director_records_outgoing_headers_witness :
  ctxRequestInfo (req Sample.state) = Some 2%positive
  /\ infos Sample.state !! 2%positive = Some Sample.info
  /\ hdrs Sample.state !! Header (req Sample.state) = Some Sample.headers
  /\ exists s' info' l sent,
       Proxy.setupProxyRequest (clock := Sample.clock) Sample.state
       = (Returned tt, s')
       /\ infos s' !! 2%positive = Some info'
       /\ BackendReqHeaders info' = Some l
       /\ l = Header (req s')
       /\ hdrs s' !! l = Some sent
       /\ is_Some (sent !! "X-Request-Start")
       /\ sent !! Http.CanonicalHeaderKey Proxy.CfAppInstance = None.
Proof.
  split; [reflexivity |]. split; [reflexivity |]. split; [reflexivity |].
  apply (director_records_outgoing_headers (clock := Sample.clock) Sample.state
           2%positive Sample.info Sample.headers); reflexivity.
Defined.

Lemma director_panics_without_request_info_witness :
  ContextRequestInfo Inputs.bareState = inr "RequestInfo not set on context"
  /\ Proxy.setupProxyRequest (clock := Sample.clock) Inputs.bareState
     = (Panicked (OtherValue "request-info-err"),
        addLog {| level := PanicLevel; message := "request-info-err";
                  detail := "RequestInfo not set on context" |} Inputs.bareState).
Proof.
  split; [reflexivity |].
  apply (director_panics_without_request_info (clock := Sample.clock)
           Inputs.bareState "RequestInfo not set on context").
  reflexivity.
Defined.

Lemma director_drops_unparsed_query_witness :
  ctxRequestInfo (req Inputs.semicolonState) = Some 2%positive
  /\ infos Inputs.semicolonState !! 2%positive = Some Sample.info
  /\ hdrs Inputs.semicolonState !! Header (req Inputs.semicolonState)
     = Some Sample.headers
  /\ Strings.HasPrefix (RequestURI (req Inputs.semicolonState)) "//" = true
  /\ Url.Query (URL (req Inputs.semicolonState)) = ∅
  /\ exists s',
       Proxy.setupProxyRequest (clock := Sample.clock) Inputs.semicolonState
       = (Returned tt, s')
       /\ Url.Opaque (URL (req s'))
          = "//" ++ Host (req Inputs.semicolonState)
            ++ Proxy.escapePathAndPreserveSlashes
                 (Url.Path (URL (req Inputs.semicolonState)))
       /\ Url.RawQuery (URL (req s')) = "".
Proof.
  split; [reflexivity |]. split; [reflexivity |]. split; [reflexivity |].
  split; [reflexivity |]. split; [vm_compute; reflexivity |].
  apply (director_drops_unparsed_query (clock := Sample.clock)
           Inputs.semicolonState 2%positive Sample.info Sample.headers);
    reflexivity.
Defined.

(* ===================================================================== *)
(** ** More on the last stage of the pipeline *)
(* ===================================================================== *)

Section ServeMore.
Context `{clock : Time.Clock}.

(** X12: on a writer that is no [utils.ProxyResponseWriter] the stage
    panics with the error of the failed type assertion before it does
    anything: the state is untouched and [next] does not run. *)
Theorem serve_panics_on_plain_writer (cfg : Config.Config) (next : Go unit)
    (s : State) :
  rwIsProxyWriter (rw s) = false ->
  Proxy.ServeHTTP cfg next s
  = (Panicked (ErrorValue
       "interface conversion: http.ResponseWriter is not utils.ProxyResponseWriter"),
     s).
Proof.
  intros Hw. unfold Proxy.ServeHTTP. go_run. rewrite Hw. reflexivity.
Qed.

(** X13: with RequestInfo attached but no pool in it, the stage logs
    [failed-to-access-RoutePool] and panics with [request-info-err]; [next]
    does not run, no time is taken and the RequestInfo is untouched. *)
Theorem serve_panics_without_pool (cfg : Config.Config) (next : Go unit)
    (s : State) (p : loc) (info : RequestInfo) :
  rwIsProxyWriter (rw s) = true ->
  rwFullDuplexErr (rw s) = None ->
  ctxRequestInfo (req s) = Some p ->
  infos s !! p = Some info ->
  RoutePool info = None ->
  exists s',
    Proxy.ServeHTTP cfg next s = (Panicked (OtherValue "request-info-err"), s')
    /\ logs s' = (logs s ++ [{| level := PanicLevel; message := "request-info-err";
                                detail := "failed-to-access-RoutePool" |}])%list
    /\ infos s' = infos s
    /\ clockReads s' = clockReads s
    /\ metrics s' = metrics s
    /\ rwCalls (rw s') = rwCalls (rw s).
Proof.
  intros Hw Hd Hc Hi Hp. unfold Proxy.ServeHTTP, ContextRequestInfo.
  go_run. rewrite Hw. go_run.
  destruct (Config.EnableHTTP1ConcurrentReadWrite cfg && (ProtoMajor (req s) =? 1));
    go_run; rewrite ?Hd; go_run; rewrite Hc.
  all: destruct (decide (is_Some (infos s !! p))) as [_ | Hno];
    [| exfalso; apply Hno; rewrite Hi; eauto].
  all: go_run; rewrite Hi; go_run; rewrite Hp; go_run.
  all: eexists; split; [reflexivity |]; repeat split.
Qed.

(** X14: a panic of [next] passes through the stage as it is, value and
    state: the finish time is not written. *)
Theorem serve_passes_panic_on (cfg : Config.Config) (next : Go unit)
    (s s1 : State) (p : loc) (info : RequestInfo) (v : PanicValue) :
  rwIsProxyWriter (rw s) = true ->
  rwFullDuplexErr (rw s) = None ->
  ctxRequestInfo (req s) = Some p ->
  infos s !! p = Some info ->
  RoutePool info <> None ->
  next (serveEntry cfg p info s) = (Panicked v, s1) ->
  Proxy.ServeHTTP cfg next s = (Panicked v, s1).
Proof.
  intros Hw Hd Hc Hi Hp Hn. unfold Proxy.ServeHTTP, serveEntry, ContextRequestInfo in *.
  go_run. rewrite Hw. go_run.
  destruct (Config.EnableHTTP1ConcurrentReadWrite cfg && (ProtoMajor (req s) =? 1));
    go_run; rewrite ?Hd; go_run; rewrite Hc.
  all: destruct (decide (is_Some (infos s !! p))) as [_ | Hno];
    [| exfalso; apply Hno; rewrite Hi; eauto].
  all: go_run; rewrite Hi; go_run.
  all: destruct (RoutePool info); [| contradiction]; go_run.
  all: rewrite Hi; go_run; rewrite Hn; reflexivity.
Qed.

(** X15: when the stage returns and [next] leaves the full-duplex switch of
    the writer alone, the switch is on afterwards exactly if it was on
    before or the configuration asks for concurrent read and write and the
    request is HTTP/1: for HTTP/2 the stage never switches it on. *)
Theorem serve_full_duplex_only_for_http1 (cfg : Config.Config) (next : Go unit)
    (s s' : State) :
  (forall s0 o s1, next s0 = (o, s1) -> rwFullDuplex (rw s1) = rwFullDuplex (rw s0)) ->
  Proxy.ServeHTTP cfg next s = (Returned tt, s') ->
  rwFullDuplex (rw s')
  = rwFullDuplex (rw s)
    || (Config.EnableHTTP1ConcurrentReadWrite cfg && (ProtoMajor (req s) =? 1)).
Proof.
  intros Hnext. unfold Proxy.ServeHTTP, ContextRequestInfo.
  go_run. destruct (rwIsProxyWriter (rw s)); go_run; [| discriminate].
  destruct (Config.EnableHTTP1ConcurrentReadWrite cfg && (ProtoMajor (req s) =? 1));
    go_run.
  1: destruct (rwFullDuplexErr (rw s)); go_run; [discriminate |].
  all: destruct (ctxRequestInfo (req s)) as [p |]; go_run; [| discriminate].
  all: destruct (decide (is_Some (infos s !! p))) as [[info Hi] | Hno];
    go_run; [| discriminate].
  all: rewrite Hi; go_run.
  all: destruct (RoutePool info); go_run; [| discriminate].
  all: rewrite Hi; go_run.
  all: match goal with
       | nx : Go unit |- context [?f ?e] =>
           constr_eq f nx; destruct (nx e) as [[[] | v] s1] eqn:Hn
       end; go_run; [| discriminate].
  all: apply Hnext in Hn; cbn in Hn.
  all: destruct (infos s1 !! p); go_run; [| discriminate].
  all: intros [= <-]; cbn; rewrite Hn.
  all: by rewrite ?orb_true_r, ?orb_false_r.
Qed.

End ServeMore.

Lemma serve_panics_on_plain_writer_witness :
  rwIsProxyWriter (rw Inputs.plainWriterState) = false
  /\ Proxy.ServeHTTP (clock := Sample.clock) Sample.cfg Sample.backendOK
       Inputs.plainWriterState
     = (Panicked (ErrorValue
          "interface conversion: http.ResponseWriter is not utils.ProxyResponseWriter"),
        Inputs.plainWriterState).
Proof.
  split; [reflexivity |].
  apply (serve_panics_on_plain_writer (clock := Sample.clock) Sample.cfg
           Sample.backendOK Inputs.plainWriterState).
  reflexivity.
Defined.

Lemma serve_panics_without_pool_witness :
  rwIsProxyWriter (rw Inputs.noPoolState) = true
  /\ rwFullDuplexErr (rw Inputs.noPoolState) = None
  /\ ctxRequestInfo (req Inputs.noPoolState) = Some 2%positive
  /\ infos Inputs.noPoolState !! 2%positive = Some Inputs.noPoolInfo
  /\ RoutePool Inputs.noPoolInfo = None
  /\ exists s',
       Proxy.ServeHTTP (clock := Sample.clock) Sample.cfg Sample.backendOK
         Inputs.noPoolState
       = (Panicked (OtherValue "request-info-err"), s')
       /\ logs s' = (logs Inputs.noPoolState
                     ++ [{| level := PanicLevel; message := "request-info-err";
                            detail := "failed-to-access-RoutePool" |}])%list
       /\ infos s' = infos Inputs.noPoolState
       /\ clockReads s' = clockReads Inputs.noPoolState
       /\ metrics s' = metrics Inputs.noPoolState
       /\ rwCalls (rw s') = rwCalls (rw Inputs.noPoolState).
Proof.
  split; [reflexivity |]. split; [reflexivity |]. split; [reflexivity |].
  split; [reflexivity |]. split; [reflexivity |].
  apply (serve_panics_without_pool (clock := Sample.clock) Sample.cfg
           Sample.backendOK Inputs.noPoolState 2%positive Inputs.noPoolInfo);
    reflexivity.
Defined.

Lemma serve_passes_panic_on_witness :
  rwIsProxyWriter (rw Sample.state) = true
  /\ rwFullDuplexErr (rw Sample.state) = None
  /\ ctxRequestInfo (req Sample.state) = Some 2%positive
  /\ infos Sample.state !! 2%positive = Some Sample.info
  /\ RoutePool Sample.info <> None
  /\ Inputs.abort (serveEntry (clock := Sample.clock) Sample.cfg 2%positive
                     Sample.info Sample.state)
     = (Panicked ErrAbortHandler,
        serveEntry (clock := Sample.clock) Sample.cfg 2%positive Sample.info
          Sample.state)
  /\ Proxy.ServeHTTP (clock := Sample.clock) Sample.cfg Inputs.abort Sample.state
     = (Panicked ErrAbortHandler,
        serveEntry (clock := Sample.clock) Sample.cfg 2%positive Sample.info
          Sample.state).
Proof.
  split; [reflexivity |]. split; [reflexivity |]. split; [reflexivity |].
  split; [reflexivity |]. split; [discriminate |]. split; [reflexivity |].
  apply (serve_passes_panic_on (clock := Sample.clock) Sample.cfg Inputs.abort
           Sample.state _ 2%positive Sample.info ErrAbortHandler);
    try reflexivity.
  discriminate.
Defined.

Lemma serve_full_duplex_only_for_http1_witness :
  (forall s0 o s1, (mret tt : Go unit) s0 = (o, s1) ->
     rwFullDuplex (rw s1) = rwFullDuplex (rw s0))
  /\ Proxy.ServeHTTP (clock := Sample.clock) Sample.cfg (mret tt) Sample.state
     = (Returned tt,
        (Proxy.ServeHTTP (clock := Sample.clock) Sample.cfg (mret tt)
           Sample.state).2)
  /\ rwFullDuplex (rw (Proxy.ServeHTTP (clock := Sample.clock) Sample.cfg
                         (mret tt) Sample.state).2)
     = rwFullDuplex (rw Sample.state)
       || (Config.EnableHTTP1ConcurrentReadWrite Sample.cfg
           && (ProtoMajor (req Sample.state) =? 1)).
Proof.
  assert (H1 : forall s0 o s1, (mret tt : Go unit) s0 = (o, s1) ->
                 rwFullDuplex (rw s1) = rwFullDuplex (rw s0))
    by (intros s0 o s1 [= _ <-]; reflexivity).
  assert (H2 : Proxy.ServeHTTP (clock := Sample.clock) Sample.cfg (mret tt)
                 Sample.state
               = (Returned tt,
                  (Proxy.ServeHTTP (clock := Sample.clock) Sample.cfg (mret tt)
                     Sample.state).2)) by (vm_compute; reflexivity).
  split; [exact H1 |]. split; [exact H2 |].
  exact (serve_full_duplex_only_for_http1 (clock := Sample.clock) Sample.cfg
           (mret tt) Sample.state _ H1 H2).
Defined.

(* ===================================================================== *)
(** ** More on the reporter *)
(* ===================================================================== *)

Lemma ContextRequestInfo_attached (s : State) (p : loc) (info : RequestInfo) :
  ctxRequestInfo (req s) = Some p ->
  infos s !! p = Some info ->
  ContextRequestInfo s = inl p.
Proof.
  intros Hc Hi. unfold ContextRequestInfo. rewrite Hc.
  destruct (decide (is_Some (infos s !! p))) as [_ | Hno]; [reflexivity |].
  exfalso. apply Hno. rewrite Hi. eauto.
Qed.

(** X16: without RequestInfo the reporter writes one entry to the log and
    panics with [request-info-err]; [next] does not run and no metric is
    captured, the one for a missing Content-Length included. *)
Theorem reporter_panics_without_request_info (next : Go unit) (s : State)
    (err : string) :
  ContextRequestInfo s = inr err ->
  Handlers.reporter_ServeHTTP next s
  = (Panicked (OtherValue "request-info-err"),
     addLog {| level := PanicLevel; message := "request-info-err";
               detail := err |} s).
Proof.
  intros Hc. unfold Handlers.reporter_ServeHTTP. go_run. rewrite Hc. reflexivity.
Qed.

Lemma reporter_panics_without_request_info_witness :
  ContextRequestInfo Inputs.bareState = inr "RequestInfo not set on context"
  /\ Handlers.reporter_ServeHTTP Sample.backendOK Inputs.bareState
     = (Panicked (OtherValue "request-info-err"),
        addLog {| level := PanicLevel; message := "request-info-err";
                  detail := "RequestInfo not set on context" |} Inputs.bareState).
Proof.
  split; [reflexivity |].
  apply (reporter_panics_without_request_info Sample.backendOK Inputs.bareState
           "RequestInfo not set on context").
  reflexivity.
Defined.

(** X17: a panic of [next] passes through the reporter as it is, value and
    state: whatever the RequestInfo says by then, no routing response and no
    latency is captured for a request whose handling panicked. *)
Theorem reporter_passes_panic_on (next : Go unit) (s s1 : State) (p : loc)
    (v : PanicValue) :
  ContextRequestInfo s = inl p ->
  next (reporterEntry s) = (Panicked v, s1) ->
  Handlers.reporter_ServeHTTP next s = (Panicked v, s1).
Proof. apply reporter_next_panics. Qed.

Lemma reporter_passes_panic_on_witness :
  ContextRequestInfo Sample.state = inl 2%positive
  /\ Inputs.abort (reporterEntry Sample.state)
     = (Panicked ErrAbortHandler, reporterEntry Sample.state)
  /\ Handlers.reporter_ServeHTTP Inputs.abort Sample.state
     = (Panicked ErrAbortHandler, reporterEntry Sample.state).
Proof.
  split; [vm_compute; reflexivity |]. split; [reflexivity |].
  apply (reporter_passes_panic_on Inputs.abort Sample.state _ 2%positive
           ErrAbortHandler); [vm_compute; reflexivity | reflexivity].
Defined.

Section ReporterOverServe.
Context `{clock : Time.Clock}.

Lemma reporterEntry_keeps (s : State) :
  req (reporterEntry s) = req s /\ infos (reporterEntry s) = infos s
  /\ rw (reporterEntry s) = rw s /\ hdrs (reporterEntry s) = hdrs s.
Proof. unfold reporterEntry. destruct (String.eqb _ _); repeat split. Qed.

(** The reporter in front of the last stage: when the backend handler
    behind the stage returns with an endpoint selected, and the wall clock
    does not show the very instant of the zero time, the reporter captures
    the routing response and then the latency, which runs from the receipt
    of the request to the finish time that the stage took after the backend
    returned. *)
Lemma reporter_over_serve (cfg : Config.Config) (backend : Go unit)
    (s s1 : State) (p ep : loc) (info info1 : RequestInfo) :
  ctxRequestInfo (req s) = Some p ->
  infos s !! p = Some info ->
  RoutePool info <> None ->
  rwIsProxyWriter (rw s) = true ->
  rwFullDuplexErr (rw s) = None ->
  backend (serveEntry cfg p info (reporterEntry s)) = (Returned tt, s1) ->
  infos s1 !! p = Some info1 ->
  RouteEndpoint info1 = Some ep ->
  rwIsProxyWriter (rw s1) = true ->
  Time.wallAt (clockReads s1) <> Time.unixNano Time.zero ->
  metrics (Handlers.reporter_ServeHTTP (Proxy.ServeHTTP cfg backend) s).2
  = (metrics s1
     ++ [CaptureRoutingResponse (Status (rw s1));
         CaptureRoutingResponseLatency ep (Status (rw s1)) (ReceivedAt info1)
           (Time.Sub (reading (clockReads s1)) (ReceivedAt info1))])%list.
Proof.
  intros Hc Hi Hp Hw Hd Hb Hi1 He Hw1 Hz.
  destruct (reporterEntry_keeps s) as (Er & Ei & Ew & _).
  assert (Hserve := serve_returns cfg backend (reporterEntry s) s1 p info info1).
  rewrite Er, Ei, Ew in Hserve. specialize (Hserve Hw Hd Hc Hi Hp Hb Hi1).
  rewrite (reporter_run _ s _ p _ (ContextRequestInfo_attached s p info Hc Hi) Hserve
             (lookup_insert_eq _ _ _)).
  cbn. rewrite He, Hw1. unfold Time.Equal. cbn.
  apply Z.eqb_neq in Hz. change (Time.unixNano Time.zero)
    with (-62135596800 * Time.Second) in Hz.
  rewrite Hz. reflexivity.
Qed.

(** X18: the reporter in front of the last stage.  When the backend handler
    behind the stage returns with an endpoint selected, and the wall clock
    does not show the very instant of the zero time, the reporter captures
    the routing response and then the latency, which runs from the receipt
    of the request to the finish time that the stage took after the backend
    returned. *)
Theorem reporter_over_last_stage (cfg : Config.Config) (backend : Go unit)
    (s s1 : State) (p ep : loc) (info info1 : RequestInfo) :
  ctxRequestInfo (req s) = Some p ->
  infos s !! p = Some info ->
  RoutePool info <> None ->
  rwIsProxyWriter (rw s) = true ->
  rwFullDuplexErr (rw s) = None ->
  backend (serveEntry cfg p info (reporterEntry s)) = (Returned tt, s1) ->
  infos s1 !! p = Some info1 ->
  RouteEndpoint info1 = Some ep ->
  rwIsProxyWriter (rw s1) = true ->
  Time.wallAt (clockReads s1) <> Time.unixNano Time.zero ->
  metrics (Handlers.reporter_ServeHTTP (Proxy.ServeHTTP cfg backend) s).2
  = (metrics s1
     ++ [CaptureRoutingResponse (Status (rw s1));
         CaptureRoutingResponseLatency ep (Status (rw s1)) (ReceivedAt info1)
           (Time.Sub (reading (clockReads s1)) (ReceivedAt info1))])%list.
Proof. apply reporter_over_serve. Qed.

(** A reading of the clocks minus an earlier one is a duration that is not
    negative, whatever the wall clock did in between. *)
Lemma Sub_readings (k m : nat) :
  (k <= m)%nat -> 0 <= Time.Sub (reading m) (reading k) <= Time.maxDuration.
Proof.
  intros Hkm. pose proof (Time.monoAt_nondecreasing k m Hkm) as Hmono.
  unfold Time.Sub, reading, Time.minDuration, Time.maxDuration. cbn.
  change (2 ^ 63) with 9223372036854775808. lia.
Qed.

(** X27: in the same situation, when the receipt time of the request was
    itself taken from the clocks, the latency that the reporter captures is
    never negative, even if the wall clock was set back while the request
    was served. *)
Theorem reported_latency_not_negative (cfg : Config.Config) (backend : Go unit)
    (s s1 : State) (p ep : loc) (info info1 : RequestInfo) (k : nat) :
  ctxRequestInfo (req s) = Some p ->
  infos s !! p = Some info ->
  RoutePool info <> None ->
  rwIsProxyWriter (rw s) = true ->
  rwFullDuplexErr (rw s) = None ->
  backend (serveEntry cfg p info (reporterEntry s)) = (Returned tt, s1) ->
  infos s1 !! p = Some info1 ->
  RouteEndpoint info1 = Some ep ->
  rwIsProxyWriter (rw s1) = true ->
  Time.wallAt (clockReads s1) <> Time.unixNano Time.zero ->
  ReceivedAt info1 = reading k ->
  (k <= clockReads s1)%nat ->
  exists d,
    metrics (Handlers.reporter_ServeHTTP (Proxy.ServeHTTP cfg backend) s).2
    = (metrics s1
       ++ [CaptureRoutingResponse (Status (rw s1));
           CaptureRoutingResponseLatency ep (Status (rw s1)) (reading k) d])%list
    /\ 0 <= d <= Time.maxDuration.
Proof.
  intros Hc Hi Hp Hw Hd Hb Hi1 He Hw1 Hz Hr Hk.
  exists (Time.Sub (reading (clockReads s1)) (reading k)).
  split; [| by apply Sub_readings].
  rewrite (reporter_over_serve cfg backend s s1 p ep info info1) by assumption.
  by rewrite Hr.
Qed.

End ReporterOverServe.

Lemma reporter_over_last_stage_witness :
  ctxRequestInfo (req Sample.state) = Some 2%positive
  /\ infos Sample.state !! 2%positive = Some Sample.info
  /\ RoutePool Sample.info <> None
  /\ rwIsProxyWriter (rw Sample.state) = true
  /\ rwFullDuplexErr (rw Sample.state) = None
  /\ Sample.backendOK
       (serveEntry (clock := Sample.clock) Sample.cfg 2%positive Sample.info
          (reporterEntry Sample.state))
     = (Returned tt, Inputs.afterBackend)
  /\ infos Inputs.afterBackend !! 2%positive = Some Inputs.backendInfo
  /\ RouteEndpoint Inputs.backendInfo = Some 5%positive
  /\ rwIsProxyWriter (rw Inputs.afterBackend) = true
  /\ Time.wallAt (Clock := Sample.clock) (clockReads Inputs.afterBackend)
     <> Time.unixNano Time.zero
  /\ metrics (Handlers.reporter_ServeHTTP
                (Proxy.ServeHTTP (clock := Sample.clock) Sample.cfg Sample.backendOK)
                Sample.state).2
     = (metrics Inputs.afterBackend
        ++ [CaptureRoutingResponse (Status (rw Inputs.afterBackend));
            CaptureRoutingResponseLatency 5%positive (Status (rw Inputs.afterBackend))
              (ReceivedAt Inputs.backendInfo)
              (Time.Sub (reading (clock := Sample.clock)
                           (clockReads Inputs.afterBackend))
                 (ReceivedAt Inputs.backendInfo))])%list.
Proof.
  assert (Hz : Time.wallAt (Clock := Sample.clock) (clockReads Inputs.afterBackend)
               <> Time.unixNano Time.zero) by (vm_compute; discriminate).
  split; [reflexivity |]. split; [reflexivity |]. split; [discriminate |].
  split; [reflexivity |]. split; [reflexivity |].
  split; [vm_compute; reflexivity |]. split; [vm_compute; reflexivity |].
  split; [reflexivity |]. split; [vm_compute; reflexivity |].
  split; [exact Hz |].
  apply (reporter_over_last_stage (clock := Sample.clock) Sample.cfg
           Sample.backendOK Sample.state Inputs.afterBackend 2%positive
           5%positive Sample.info Inputs.backendInfo);
    try (vm_compute; reflexivity); try discriminate; exact Hz.
Defined.

Lemma reported_latency_not_negative_witness :
  ctxRequestInfo (req Inputs.timedState) = Some 2%positive
  /\ infos Inputs.timedState !! 2%positive = Some Inputs.timedInfo
  /\ RoutePool Inputs.timedInfo <> None
  /\ rwIsProxyWriter (rw Inputs.timedState) = true
  /\ rwFullDuplexErr (rw Inputs.timedState) = None
  /\ Sample.backendOK
       (serveEntry (clock := Sample.clock) Sample.cfg 2%positive Inputs.timedInfo
          (reporterEntry Inputs.timedState))
     = (Returned tt, Inputs.afterTimedBackend)
  /\ infos Inputs.afterTimedBackend !! 2%positive = Some Inputs.timedBackendInfo
  /\ RouteEndpoint Inputs.timedBackendInfo = Some 5%positive
  /\ rwIsProxyWriter (rw Inputs.afterTimedBackend) = true
  /\ Time.wallAt (Clock := Sample.clock) (clockReads Inputs.afterTimedBackend)
     <> Time.unixNano Time.zero
  /\ ReceivedAt Inputs.timedBackendInfo = reading (clock := Sample.clock) 0
  /\ (0 <= clockReads Inputs.afterTimedBackend)%nat
  /\ exists d,
       metrics (Handlers.reporter_ServeHTTP
                  (Proxy.ServeHTTP (clock := Sample.clock) Sample.cfg
                     Sample.backendOK)
                  Inputs.timedState).2
       = (metrics Inputs.afterTimedBackend
          ++ [CaptureRoutingResponse (Status (rw Inputs.afterTimedBackend));
              CaptureRoutingResponseLatency 5%positive
                (Status (rw Inputs.afterTimedBackend))
                (reading (clock := Sample.clock) 0) d])%list
       /\ 0 <= d <= Time.maxDuration.
Proof.
  assert (Hz : Time.wallAt (Clock := Sample.clock)
                 (clockReads Inputs.afterTimedBackend)
               <> Time.unixNano Time.zero) by (vm_compute; discriminate).
  split; [reflexivity |]. split; [reflexivity |]. split; [discriminate |].
  split; [reflexivity |]. split; [reflexivity |].
  split; [vm_compute; reflexivity |]. split; [vm_compute; reflexivity |].
  split; [reflexivity |]. split; [vm_compute; reflexivity |].
  split; [exact Hz |]. split; [reflexivity |]. split; [lia |].
  apply (reported_latency_not_negative (clock := Sample.clock) Sample.cfg
           Sample.backendOK Inputs.timedState Inputs.afterTimedBackend
           2%positive 5%positive Inputs.timedInfo Inputs.timedBackendInfo 0%nat);
    try (vm_compute; reflexivity); try discriminate; try lia; exact Hz.
Defined.

(* ===================================================================== *)
(** ** More on the health-check handler *)
(* ===================================================================== *)

(** X19: the health-check handler never panics and touches nothing but the
    response writer and the [Close] mark of the request: the health state
    itself, the header maps of the request, the RequestInfo objects, the
    metrics, the log and the clock are as before; and what it writes does
    not depend on the request. *)
Theorem healthcheck_frame (s : State) :
  exists s',
    Handlers.healthcheck_ServeHTTP s = (Returned tt, s')
    /\ req s' = withClose true (req s)
    /\ health s' = health s
    /\ hdrs s' = hdrs s /\ infos s' = infos s
    /\ metrics s' = metrics s /\ logs s' = logs s
    /\ clockReads s' = clockReads s
    /\ (forall t, rw t = rw s -> health t = health s ->
          rw (Handlers.healthcheck_ServeHTTP t).2 = rw s').
Proof.
  eexists. split; [apply healthcheck_run |]. cbn. repeat split.
  intros t Hrw Hh. rewrite healthcheck_run. cbn. rewrite Hrw, Hh. reflexivity.
Qed.

(* ===================================================================== *)
(** ** The overrides of the header handlers *)
(* ===================================================================== *)

(** X20: [ForceDeleteXFCCHeader] answers true exactly when the request
    arrived through a route service and the policy is neither
    [sanitize_set] nor [always_forward]; an error of the validator comes
    back with the answer false, and there is no other error. *)
Theorem force_delete_xfcc_iff `{Proxy.RouteServiceValidator V} (v : V)
    (policy : string) (s : State) :
  ((Chain.ForceDeleteXFCCHeader v policy s).1 = true
     <-> Proxy.ArrivedViaRouteService v s = inl true
         /\ policy <> Chain.SANITIZE_SET /\ policy <> Chain.ALWAYS_FORWARD)
  /\ (forall err, (Chain.ForceDeleteXFCCHeader v policy s).2 = Some err
                  <-> Proxy.ArrivedViaRouteService v s = inr err)
  /\ (forall err, Proxy.ArrivedViaRouteService v s = inr err ->
                  (Chain.ForceDeleteXFCCHeader v policy s).1 = false).
Proof.
  unfold Chain.ForceDeleteXFCCHeader.
  destruct (Proxy.ArrivedViaRouteService v s) as [valid | e]; cbn.
  - split; [| split].
    + rewrite !andb_true_iff, !negb_true_iff, !String.eqb_neq.
      split.
      * intros [[-> H1] H2]. auto.
      * intros ([= ->] & H1 & H2). auto.
    + intros err. split; intros E; discriminate E.
    + intros err E. discriminate E.
  - split; [| split].
    + split; [intros E; discriminate E | intros (E & _); discriminate E].
    + intros err. split; intros [= ->]; reflexivity.
    + reflexivity.
Qed.

(** X21: whenever the XFCC handler may skip sanitization, the
    X-Forwarded-Proto handler may too; on a TLS connection the two
    predicates agree, and without TLS only the XFCC one always says no. *)
Theorem skip_sanitize_implies_skip_xfp `{Proxy.RouteServiceValidator V} (v : V)
    (s : State) :
  (Proxy.SkipSanitize v s = true -> Proxy.SkipSanitizeXFP v s = true)
  /\ (TLS (req s) <> None -> Proxy.SkipSanitize v s = Proxy.SkipSanitizeXFP v s)
  /\ (TLS (req s) = None -> Proxy.SkipSanitize v s = false).
Proof.
  unfold Proxy.SkipSanitize, Proxy.SkipSanitizeXFP. repeat split.
  - intros Ht. by apply andb_true_iff in Ht as [-> _].
  - intros Ht. rewrite bool_decide_eq_true_2 by exact Ht. apply andb_true_r.
  - intros Ht. rewrite bool_decide_eq_false_2; [apply andb_false_r |].
    intros Hn. by apply Hn.
Qed.

(* ===================================================================== *)
(** ** The chain that [NewProxy] builds *)
(* ===================================================================== *)

Section ChainFacts.
Context `{clock : Time.Clock}.

(** The panic guard is the first handler of the chain in every
    configuration, so it encloses all the others. *)
Lemma NewProxy_guarded (cfg : Config.Config) (opts : Chain.Options)
    (c : Chain.Collaborators) :
  Chain.NewProxy cfg opts c
  = Handlers.panicCheck_ServeHTTP
      (Chain.build (tail (Chain.handlersOf cfg opts c))).
Proof. reflexivity. Qed.

(** X22: whatever the configuration, the collaborating handlers and the
    reverse proxy do, the handler that [NewProxy] returns panics with no
    value but [http.ErrAbortHandler]. *)
Theorem new_proxy_lets_only_abort_out (cfg : Config.Config)
    (opts : Chain.Options) (c : Chain.Collaborators) (s s' : State)
    (v : PanicValue) :
  Chain.NewProxy cfg opts c s = (Panicked v, s') -> v = ErrAbortHandler.
Proof.
  rewrite NewProxy_guarded. intros Hp.
  by destruct (guard_panics_only_with_abort _ _ _ _ Hp).
Qed.

(** X23: the order of the handlers that the sources hold, in every
    configuration: with collaborators that hand the request on untouched,
    the chain is the panic guard around the reporter around the last stage
    around the reverse proxy. *)
Theorem new_proxy_nesting (cfg : Config.Config) (opts : Chain.Options)
    (rproxy : Go unit) :
  Chain.NewProxy cfg opts (Inputs.transparent rproxy)
  = Handlers.panicCheck_ServeHTTP
      (Handlers.reporter_ServeHTTP
         (Proxy.ServeHTTP cfg (Chain.Wrap rproxy (mret tt)))).
Proof.
  destruct opts as [[] [] []]; reflexivity.
Qed.

End ChainFacts.

Lemma new_proxy_lets_only_abort_out_witness :
  Chain.NewProxy (clock := Sample.clock) Sample.cfg
    {| Chain.SendHttpStartStopServerEvent := true;
       Chain.promRegistryIsSet := true;
       Chain.PerAppPrometheusHttpMetricsReporting := false |}
    (Inputs.transparent Inputs.abort) Sample.state
  = (Panicked ErrAbortHandler,
     serveEntry (clock := Sample.clock) Sample.cfg 2%positive Sample.info
       (reporterEntry Sample.state))
  /\ ErrAbortHandler = ErrAbortHandler.
Proof.
  split; [vm_compute; reflexivity |].
  apply (new_proxy_lets_only_abort_out (clock := Sample.clock) Sample.cfg
           {| Chain.SendHttpStartStopServerEvent := true;
              Chain.promRegistryIsSet := true;
              Chain.PerAppPrometheusHttpMetricsReporting := false |}
           (Inputs.transparent Inputs.abort) Sample.state
           (serveEntry (clock := Sample.clock) Sample.cfg 2%positive Sample.info
              (reporterEntry Sample.state))
           ErrAbortHandler).
  vm_compute. reflexivity.
Defined.

(* ===================================================================== *)
(** ** The recording round tripper *)
(* ===================================================================== *)

(** What the fake holds after [RoundTrip] was called with [args], in this
    order: the arguments, and one invocation per call under the one key
    [RoundTrip]. *)
Definition holds (fake : Fakes.RoundTripper) (args : list Fakes.ptr) : Prop :=
  Fakes.roundTripArgsForCall fake = args
  /\ Fakes.Invocations fake
     = match args with
       | [] => ∅
       | _ => {[ "RoundTrip" := map (fun a => [a]) args ]}
       end.

Lemma step_holds (fake : Fakes.RoundTripper) (args : list Fakes.ptr) (c : Fakes.Call) :
  holds fake args ->
  holds (Fakes.step fake c) (args ++ Fakes.argsOf [c]).
Proof.
  intros [Ha Hi]. destruct c as [arg1 | stub | r1 r2 | i r1 r2]; cbn.
  2-4: rewrite app_nil_r; split; [exact Ha | exact Hi].
  unfold holds, Fakes.Invocations, Fakes.recordInvocation in *. cbn.
  rewrite Ha. split; [reflexivity |]. rewrite Hi.
  destruct args as [| a args]; cbn.
  - rewrite lookup_empty, lookup_insert_eq. cbn.
    by rewrite insert_insert_eq, insert_empty.
  - rewrite lookup_singleton_eq. cbn.
    rewrite <- insert_empty, insert_insert_eq, insert_empty.
    by rewrite map_app.
Qed.

Lemma run_holds (calls : list Fakes.Call) (fake : Fakes.RoundTripper)
    (args : list Fakes.ptr) :
  holds fake args ->
  holds (Fakes.run calls fake) (args ++ Fakes.argsOf calls).
Proof.
  revert fake args. induction calls as [| c calls IH]; intros fake args Hh.
  - cbn. by rewrite app_nil_r.
  - cbn [Fakes.run fold_left]. fold (Fakes.run calls (Fakes.step fake c)).
    replace (Fakes.argsOf (c :: calls))
      with (Fakes.argsOf [c] ++ Fakes.argsOf calls)%list
      by (unfold Fakes.argsOf; cbn; by destruct c).
    rewrite app_assoc. apply IH, step_holds, Hh.
Qed.

(** X24: after any sequence of calls on a new fake, in which setting stubs
    and returns may come between the round trips, the fake has recorded the
    arguments of the [RoundTrip] calls and nothing else: the call count is
    their number, [RoundTripArgsForCall(i)] is the argument of the [i]-th of
    them, and [Invocations()] holds one entry per call under the key
    [RoundTrip] and no other key. *)
Theorem fake_records_round_trips (calls : list Fakes.Call) :
  let fake := Fakes.run calls Fakes.zero in
  Fakes.RoundTripCallCount fake = Z.of_nat (length (Fakes.argsOf calls))
  /\ (forall i : nat,
        Fakes.RoundTripArgsForCall fake (Z.of_nat i) = Fakes.argsOf calls !! i)
  /\ Fakes.Invocations fake !! "RoundTrip"
     = match Fakes.argsOf calls with
       | [] => None
       | args => Some (map (fun a => [a]) args)
       end
  /\ (forall key, key <> "RoundTrip" -> Fakes.Invocations fake !! key = None).
Proof.
  intros fake.
  destruct (run_holds calls Fakes.zero [] (conj eq_refl eq_refl)) as [Ha Hi].
  fold fake in Ha, Hi. cbn [app] in Ha, Hi.
  unfold Fakes.RoundTripCallCount, Fakes.RoundTripArgsForCall.
  rewrite Ha, Hi. repeat split.
  - intros i. destruct (Z.leb_spec 0 (Z.of_nat i)); [by rewrite Nat2Z.id | lia].
  - destruct (Fakes.argsOf calls); [apply lookup_empty | apply lookup_singleton_eq].
  - intros key Hk. destruct (Fakes.argsOf calls); [apply lookup_empty |].
    by apply lookup_singleton_ne.
Qed.

(** X25: [RoundTripArgsForCall(i)] panics exactly for an index below zero
    or not below the call count; a call of [RoundTrip] raises the count by
    one, its argument is then found at the old count, and the arguments of
    the earlier calls stay where they were. *)
Theorem fake_args_for_call (fake : Fakes.RoundTripper) (arg1 : Fakes.ptr) :
  (forall i, Fakes.RoundTripArgsForCall fake i = None
             <-> i < 0 \/ Fakes.RoundTripCallCount fake <= i)
  /\ Fakes.RoundTripCallCount (Fakes.RoundTrip fake arg1).1
     = Fakes.RoundTripCallCount fake + 1
  /\ Fakes.RoundTripArgsForCall (Fakes.RoundTrip fake arg1).1
       (Fakes.RoundTripCallCount fake) = Some arg1
  /\ (forall i, i < Fakes.RoundTripCallCount fake ->
        Fakes.RoundTripArgsForCall (Fakes.RoundTrip fake arg1).1 i
        = Fakes.RoundTripArgsForCall fake i).
Proof.
  unfold Fakes.RoundTripArgsForCall, Fakes.RoundTripCallCount.
  cbn [Fakes.RoundTrip Fakes.recordInvocation Fakes.roundTripArgsForCall fst].
  split; [| split; [| split]].
  - intros i. destruct (Z.leb_spec 0 i) as [Hz | Hz].
    + rewrite lookup_ge_None. lia.
    + split; [lia | reflexivity].
  - rewrite length_app. cbn. lia.
  - destruct (Z.leb_spec 0 (Z.of_nat (length (Fakes.roundTripArgsForCall fake))));
      [| lia].
    rewrite Nat2Z.id. by rewrite lookup_app_r, Nat.sub_diag.
  - intros i Hi. destruct (Z.leb_spec 0 i); [| reflexivity].
    apply lookup_app_l. lia.
Qed.

